(** * dlquant: trial evaluation and optimisation loop

    A shallow embedding of the orchestration code of
    [models/LightGBMModel.py] and [models/TSMixerModel_deploy.py]:
    search-space definition, rolling backtest, label derivation,
    binarisation, precision scoring and the optimisation loop.

    Conventions.
    - A finite floating-point value is modelled by the rational it
      denotes ([Q]); comparison against [0.5] and the cast to [int]
      are exact on such values.
    - Python exceptions are values of [exn]; a call that may raise
      returns a [result].
    - Library calls (darts, scikit-learn, Optuna) are embedded by their
      documented behaviour for the arguments the source passes. *)

From Stdlib Require Import String ZArith QArith Qround Bool Lia.
From Stdlib Require Import List.
Import Datatypes List ListNotations.

Local Open Scope Z_scope.

(** ** Exceptions and results *)

(** The exceptions that occur on the modelled paths.  [ValueError] and
    [IndexError] are the ones Python and the libraries raise; the other
    four are the names of the error taxonomy, which a collaborator
    (fit, backtest, plotting) may raise. *)
Inductive exn : Type :=
| ValueError
| IndexError
| ConfigurationError
| TrainingError
| AlignmentError
| ScoringError.

Inductive result (A : Type) : Type :=
| Ok (a : A)
| Raise (e : exn).

Arguments Ok {A} a.
Arguments Raise {A} e.

Definition is_ok {A} (r : result A) : bool :=
  match r with Ok _ => true | Raise _ => false end.

Definition exn_eq_dec (a b : exn) : {a = b} + {a <> b}.
Proof. decide equality. Defined.

(** ** Time series *)

Module Series.

(** A darts [TimeSeries]: one row per time stamp, each row holding the
    values of the components (columns). *)
Definition row : Type := (Z * list Q)%type.
Definition t : Type := list row.

Definition time_index (s : t) : list Z := map fst s.
Definition values (s : t) : list (list Q) := map snd s.

(** [values().flatten()]: row-major concatenation. *)
Definition flatten (v : list (list Q)) : list Q := List.concat v.
Definition flatten_bool (v : list (list bool)) : list bool := List.concat v.

(** Python's [xs[k:]] for any integer [k]: a negative [k] counts from
    the end, and the start is clamped into [0 .. len xs]. *)
Definition slice_from {A} (k : Z) (xs : list A) : list A :=
  let n := Z.of_nat (length xs) in
  let start := if k <? 0 then Z.max (n + k) 0 else Z.min k n in
  skipn (Z.to_nat start) xs.

(** Python's [xs[:k]] on a sequence, such as the column index of a
    series. *)
Definition slice_to {A} (k : Z) (xs : list A) : list A :=
  let n := Z.of_nat (length xs) in
  let stop := if k <? 0 then Z.max (n + k) 0 else Z.min k n in
  firstn (Z.to_nat stop) xs.

(** Python's [xs[k]]: a negative [k] counts from the end; an index
    outside the sequence raises [IndexError]. *)
Definition index {A} (k : Z) (xs : list A) : result A :=
  let n := Z.of_nat (length xs) in
  let i := if k <? 0 then n + k else k in
  if (i <? 0) || (n <=? i) then Raise IndexError
  else match nth_error xs (Z.to_nat i) with
       | Some x => Ok x
       | None => Raise IndexError
       end.

(** darts' [series[:k]] on a [TimeSeries]: the rows Python's slice
    selects; a [TimeSeries] cannot be empty, so a slice that selects no
    row is rejected with [ValueError]. *)
Definition getitem_to (k : Z) (s : t) : result t :=
  match slice_to k s with
  | [] => Raise ValueError
  | r :: rows => Ok (r :: rows)
  end.

End Series.

(** ** numpy element-wise operations *)

Module Np.

(** [x > t] on one element. *)
Definition gt (x t : Q) : bool := negb (Qle_bool x t).

(** [astype(int)] on a boolean. *)
Definition int_of_bool (b : bool) : Z := if b then 1 else 0.

(** [astype(int)] on a float: the fraction is discarded, i.e. the
    value is truncated toward zero. *)
Definition astype_int (x : Q) : Z := Z.quot (Qnum x) (Z.pos (Qden x)).

End Np.

(** ** scikit-learn's [precision_score] *)

Module Sk.

Definition eqb1 (z : Z) : bool := z =? 1.

(** Number of positions where both the label and the prediction are
    the positive label [1]. *)
Fixpoint tp_sum (y_true y_pred : list Z) : nat :=
  match y_true, y_pred with
  | t :: ts, p :: ps =>
      ((if eqb1 t && eqb1 p then 1 else 0) + tp_sum ts ps)%nat
  | _, _ => O
  end.

(** Number of positions predicted positive. *)
Fixpoint pred_sum (y_pred : list Z) : nat :=
  match y_pred with
  | p :: ps => ((if eqb1 p then 1 else 0) + pred_sum ps)%nat
  | [] => O
  end.

(** Number of positions predicted positive whose label is not [1]. *)
Fixpoint fp_sum (y_true y_pred : list Z) : nat :=
  match y_true, y_pred with
  | t :: ts, p :: ps =>
      ((if negb (eqb1 t) && eqb1 p then 1 else 0) + fp_sum ts ps)%nat
  | _, _ => O
  end.

(** The labels that occur in either vector. *)
Definition present_labels (y_true y_pred : list Z) : list Z :=
  nodup Z.eq_dec (y_true ++ y_pred).

Definition mem (z : Z) (l : list Z) : bool := existsb (Z.eqb z) l.

(** The guarded division of the metric: a zero denominator gives [0]
    (with a warning) instead of a division error. *)
Definition prf_divide (num den : nat) : Q :=
  if Nat.eqb den 0 then 0%Q
  else (inject_Z (Z.of_nat num) / inject_Z (Z.of_nat den))%Q.

(** [precision_score(y_true, y_pred)] with the defaults the source
    uses ([average='binary'], [pos_label=1]): vectors of different
    lengths, more than two distinct labels, or two labels neither of
    which is [1], are rejected with [ValueError]. *)
Definition precision_score (y_true y_pred : list Z) : result Q :=
  if negb (Nat.eqb (length y_true) (length y_pred)) then Raise ValueError
  else
    let present := present_labels y_true y_pred in
    if Nat.ltb 2 (length present) then Raise ValueError
    else if negb (mem 1 present) && Nat.leb 2 (length present)
         then Raise ValueError
    else Ok (prf_divide (tp_sum y_true y_pred) (pred_sum y_pred)).

End Sk.

(** ** A state-and-exception monad

    A computation reads and updates a state and either returns a value
    or raises; the state reached when the exception was raised is kept,
    as the effects performed before a Python exception are. *)

Definition M (S A : Type) : Type := S -> result A * S.

Definition ret {S A} (a : A) : M S A := fun s => (Ok a, s).

Definition bind {S A B} (m : M S A) (k : A -> M S B) : M S B :=
  fun s =>
    match m s with
    | (Ok a, s') => k a s'
    | (Raise e, s') => (Raise e, s')
    end.

Definition lift {S A} (r : result A) : M S A := fun s => (r, s).

Declare Scope monad_scope.
Delimit Scope monad_scope with monad.
Notation "x <- m ;; k" := (bind m (fun x => k))
  (at level 61, m at next level, right associativity) : monad_scope.
Notation "m ;;; k" := (bind m (fun _ => k))
  (at level 61, right associativity) : monad_scope.

(** Observable effects of the scripts, in program order:
    [model.fit], [model.historical_forecasts], [model.predict],
    [print], [precision_score], [logger.info], plotting, [del model]
    and [torch.cuda.empty_cache()]. *)
Inductive event : Type :=
| EvFit
| EvBacktest
| EvPredict
| EvPrint
| EvScore
| EvLog
| EvPlot
| EvDelModel
| EvEmptyCache.

Definition event_eqb (a b : event) : bool :=
  match a, b with
  | EvFit, EvFit | EvBacktest, EvBacktest | EvPredict, EvPredict
  | EvPrint, EvPrint | EvScore, EvScore | EvLog, EvLog | EvPlot, EvPlot
  | EvDelModel, EvDelModel | EvEmptyCache, EvEmptyCache => true
  | _, _ => false
  end.

Definition trace : Type := list event.

Definition emit (e : event) : M trace unit := fun tr => (Ok tt, tr ++ [e]).

(** An external call: the effect is recorded, then the call returns or
    raises. *)
Definition call {A} (e : event) (r : result A) : M trace A :=
  fun tr => (r, tr ++ [e]).

Definition occurs (e : event) (tr : trace) : bool :=
  existsb (event_eqb e) tr.

(** The accelerator cache has been emptied. *)
Definition released (tr : trace) : bool := occurs EvEmptyCache tr.

(** [precision_score] has been called. *)
Definition scored (tr : trace) : bool := occurs EvScore tr.

(** Running a computation on one component of a pair state. *)
Definition on_fst {S T A} (m : M S A) : M (S * T) A :=
  fun '(s, t) => let '(r, s') := m s in (r, (s', t)).

Definition on_snd {S T A} (m : M T A) : M (S * T) A :=
  fun '(s, t) => let '(r, t') := m t in (r, (s, t')).

(** ** Optuna: trials, studies and the optimisation loop *)

Module Optuna.

Inductive value : Type :=
| VInt (z : Z)
| VFloat (q : Q).

Inductive distribution : Type :=
| IntDistribution (low high : Z)
| FloatDistribution (low high : Q).

(** A running trial: its number in the study, the sampler that draws
    a value for a named parameter from a range, and the parameters and
    distributions recorded so far (in suggestion order). *)
Record Trial : Type := {
  number : nat;
  draw_int : string -> Z -> Z -> Z;
  draw_float : string -> Q -> Q -> Q;
  params : list (string * value);
  distributions : list (string * distribution)
}.

Definition record (t : Trial) (name : string) (v : value)
           (d : distribution) : Trial :=
  {| number := number t;
     draw_int := draw_int t;
     draw_float := draw_float t;
     params := params t ++ [(name, v)];
     distributions := distributions t ++ [(name, d)] |}.

(** [trial.suggest_int(name, low, high)]: the range is validated
    first, [low > high] raising [ValueError]; then a value is drawn
    and recorded together with its distribution. *)
Definition suggest_int (name : string) (low high : Z) : M Trial Z :=
  fun t =>
    if high <? low then (Raise ValueError, t)
    else
      let v := draw_int t name low high in
      (Ok v, record t name (VInt v) (IntDistribution low high)).

(** [trial.suggest_float(name, low, high)]. *)
Definition suggest_float (name : string) (low high : Q) : M Trial Q :=
  fun t =>
    if negb (Qle_bool low high) then (Raise ValueError, t)
    else
      let v := draw_float t name low high in
      (Ok v, record t name (VFloat v) (FloatDistribution low high)).

Fixpoint lookup {A} (name : string) (l : list (string * A)) : option A :=
  match l with
  | [] => None
  | (k, a) :: l' => if String.eqb k name then Some a else lookup name l'
  end.

Inductive TrialState : Type := COMPLETE | FAIL.

(** A finished trial as the study stores it. *)
Record FrozenTrial : Type := {
  ft_number : nat;
  ft_state : TrialState;
  ft_value : option Q;
  ft_params : list (string * value)
}.

Definition freeze (t : Trial) (s : TrialState) (v : option Q) : FrozenTrial :=
  {| ft_number := number t; ft_state := s; ft_value := v;
     ft_params := params t |}.

Definition is_complete (t : FrozenTrial) : bool :=
  match ft_state t, ft_value t with
  | COMPLETE, Some _ => true
  | _, _ => false
  end.

Definition is_fail (t : FrozenTrial) : bool :=
  match ft_state t with FAIL => true | COMPLETE => false end.

(** The score of a completed trial. *)
Definition score_of (t : FrozenTrial) : option Q :=
  match ft_state t with
  | COMPLETE => ft_value t
  | FAIL => None
  end.

(** Direction [maximize]: a finished trial replaces the best one when
    it completed and its value is strictly greater, or when there is
    no best trial yet. *)
Definition update_best (best : option FrozenTrial) (t : FrozenTrial)
  : option FrozenTrial :=
  match score_of t with
  | None => best
  | Some v =>
      match best with
      | None => Some t
      | Some b =>
          match score_of b with
          | Some bv => if negb (Qle_bool v bv) then Some t else best
          | None => Some t
          end
      end
  end.

Definition best_trial (trials : list FrozenTrial) : option FrozenTrial :=
  fold_left update_best trials None.

(** [study.best_value]: raises [ValueError] while no trial has
    completed. *)
Definition best_value (trials : list FrozenTrial) : result Q :=
  match best_trial trials with
  | Some b => match score_of b with
              | Some v => Ok v
              | None => Raise ValueError
              end
  | None => Raise ValueError
  end.

(** [study.best_params] *)
Definition best_params (trials : list FrozenTrial)
  : result (list (string * value)) :=
  match best_trial trials with
  | Some b => Ok (ft_params b)
  | None => Raise ValueError
  end.

Definition completed (trials : list FrozenTrial) : list FrozenTrial :=
  filter is_complete trials.

Definition failed (trials : list FrozenTrial) : list FrozenTrial :=
  filter is_fail trials.

Section Optimize.

(** [ask]: the fresh trial of a given number. *)
Variable new_trial : nat -> Trial.

(** The objective reads the study (a global of the script), runs in
    the trial and the outside world, and returns a score or raises. *)
Variable objective : list FrozenTrial -> M (Trial * trace) Q.

(** The [catch] argument: the exceptions after which the study goes
    on. *)
Variable catch : exn -> bool.

(** [study.optimize(objective, n_trials, catch)] with one job: each
    trial is stored when it finishes, as complete with its value or
    as failed; an exception outside [catch] is raised again after
    the trial is stored, which ends the loop. *)
Fixpoint optimize (n_trials : nat) : M (list FrozenTrial * trace) unit :=
  match n_trials with
  | O => ret tt
  | S n =>
      fun '(trials, tr) =>
        match objective trials (new_trial (length trials), tr) with
        | (Ok v, (t, tr')) =>
            optimize n (trials ++ [freeze t COMPLETE (Some v)], tr')
        | (Raise e, (t, tr')) =>
            let st := (trials ++ [freeze t FAIL None], tr') in
            if catch e then optimize n st else (Raise e, st)
        end
  end.

End Optimize.

(** The default [catch=()]: no exception is caught. *)
Definition catch_nothing (e : exn) : bool := false.

End Optuna.

(** ** darts: models and rolling-origin forecasts *)

Module Darts.

(** The configuration a [LightGBMModel] is built from. *)
Record LightGBMModel : Type := {
  verbose : bool;
  lags : Z;
  lags_past_covariates : Z;
  lags_future_covariates : list Z;
  output_chunk_length : Z;
  learning_rate : Q;
  num_leaves : Z;
  n_estimators : Z;
  min_child_samples : Z;
  subsample : Q;
  colsample_bytree : Q;
  objective : string;
  random_state : Z
}.

(** A fitted model: from the history before the first forecast point,
    the forecast row [k] steps ahead ([k >= 1]).  It is only applied to
    a history of at least as many rows as the model has lags. *)
Definition Forecaster : Type := Series.t -> nat -> list Q.

Fixpoint position (x : Z) (idx : list Z) : option nat :=
  match idx with
  | [] => None
  | y :: idx' =>
      if y =? x then Some O
      else match position x idx' with
           | Some i => Some (S i)
           | None => None
           end
  end.

(** [model.historical_forecasts(series, start, forecast_horizon,
    stride, retrain=False)] with the default [last_points_only=True]
    and [overlap_end=False]: beginning at the time stamp [start], and
    every [stride] steps while the whole forecast stays inside
    [series], the fitted model (never refitted) forecasts
    [forecast_horizon] steps from the history before that point, and
    the last point of each forecast is kept under its own time
    stamp.

    A model with [lags] target lags needs [lags] rows of [series]
    before a point to forecast it, so the first [lags] rows of [series]
    cannot be forecast.  When [start] lies among them, the library
    either moves the start to the first point it can forecast that is a
    multiple of [stride] after [start] (with a warning), or rejects the
    call with [ValueError], depending on its version:
    [moves_early_start] tells which.  A call that can forecast no point
    at all is rejected.  The covariates put no further limit on the
    points that can be forecast: the bundle has them cover the whole
    span of [train], [val] and [test], the lags included. *)
Definition historical_forecasts (model : Forecaster) (lags : nat)
           (moves_early_start : bool) (series : Series.t)
           (start : Z) (forecast_horizon stride : nat) : result Series.t :=
  if Nat.eqb forecast_horizon 0 || Nat.eqb stride 0 then Raise ValueError
  else
    match position start (Series.time_index series) with
    | None => Raise ValueError
    | Some i0 =>
        if Nat.ltb i0 lags && negb moves_early_start then Raise ValueError
        else
          let n := length series in
          let first := Nat.max i0 lags in
          let origins :=
            filter (fun i => Nat.eqb ((i - i0) mod stride) 0)
                   (seq first (n - (forecast_horizon - 1) - first)) in
          match origins with
          | [] => Raise ValueError
          | _ :: _ =>
              Ok (map (fun i =>
                         (nth (i + (forecast_horizon - 1))
                              (Series.time_index series) 0,
                          model (firstn i series) forecast_horizon))
                      origins)
          end
    end.

End Darts.

(** The series bundle handed to a model. *)
Record Bundle : Type := {
  train : Series.t;
  val : Series.t;
  test : Series.t;
  past_covariates : Series.t;
  future_covariates : Series.t
}.

(** ** [models/LightGBMModel.py] *)

Module LightGBM.

(** What the script gets from outside: fitting (which may raise), the
    plotting calls of lines 115-120 (which may raise), and whether the
    installed darts moves a backtest start it cannot forecast or
    rejects it. *)
Record Collaborators : Type := {
  fit : Darts.LightGBMModel -> Series.t -> Series.t -> Series.t ->
        Series.t -> result Darts.Forecaster;
  show_plot : Series.t -> Series.t -> result unit;
  moves_early_start : bool
}.

Section Script.

(** [PRED_STEPS = TIMESERIES_LENGTH["test_length"]], a constant of
    the configuration module. *)
Variable PRED_STEPS : Z.

Variable env : Collaborators.

Local Open Scope monad_scope.
Local Open Scope string_scope.

(** The upper bound of the output horizon: [min(20, PRED_STEPS)]. *)
Definition output_chunk_upper : Z := Z.min 20 PRED_STEPS.

(** [define_model(trial)]: the entries of the parameter dictionary
    are evaluated in the order they are written. *)
Definition define_model : M Optuna.Trial Darts.LightGBMModel :=
  lags <- Optuna.suggest_int "lags" 1 64 ;;
  lags_past <- Optuna.suggest_int "lags_past_covariates" 1 64 ;;
  ocl <- Optuna.suggest_int "output_chunk_length" 1 output_chunk_upper ;;
  lr <- Optuna.suggest_float "learning_rate" (1 # 1000) (1 # 10) ;;
  leaves <- Optuna.suggest_int "num_leaves" 31 256 ;;
  n_est <- Optuna.suggest_int "n_estimators" 50 500 ;;
  mcs <- Optuna.suggest_int "min_child_samples" 20 100 ;;
  sub <- Optuna.suggest_float "subsample" (6 # 10) 1 ;;
  col <- Optuna.suggest_float "colsample_bytree" (6 # 10) 1 ;;
  ret {| Darts.verbose := true;
         Darts.lags := lags;
         Darts.lags_past_covariates := lags_past;
         Darts.lags_future_covariates := [0; -1; -2];
         Darts.output_chunk_length := ocl;
         Darts.learning_rate := lr;
         Darts.num_leaves := leaves;
         Darts.n_estimators := n_est;
         Darts.min_child_samples := mcs;
         Darts.subsample := sub;
         Darts.colsample_bytree := col;
         Darts.objective := "binary";
         Darts.random_state := 42 |}.

(** [data["test"][-PRED_STEPS:].values().flatten().astype(int)] *)
Definition true_labels (test : Series.t) : list Z :=
  map Np.astype_int
      (Series.flatten
         (Series.values (Series.slice_from (- PRED_STEPS) test))).

(** [backtest_series[-PRED_STEPS:].values().flatten()] *)
Definition probabilities (backtest_series : Series.t) : list Q :=
  Series.flatten
    (Series.values (Series.slice_from (- PRED_STEPS) backtest_series)).

(** [(probabilities > 0.5).astype(int)] *)
Definition binary_predictions (probs : list Q) : list Z :=
  map (fun p => Np.int_of_bool (Np.gt p (1 # 2))) probs.

(** Lines 104-112: labels, probabilities, binarisation, precision.
    The time indices of the two series are printed in between and
    take no part in the computation. *)
Definition score (test backtest_series : Series.t) : result Q :=
  Sk.precision_score (true_labels test)
                     (binary_predictions (probabilities backtest_series)).

(** The backtest call of lines 93-101, on the model built from
    [config] and fitted as [model].  The argument [start] is
    [data['test'].time_index[-PRED_STEPS]], evaluated before the call. *)
Definition backtest (config : Darts.LightGBMModel)
           (model : Darts.Forecaster) (test : Series.t)
  : M trace Series.t :=
  start <- lift (Series.index (- PRED_STEPS) (Series.time_index test)) ;;
  call EvBacktest
       (Darts.historical_forecasts model (Z.to_nat (Darts.lags config))
          (moves_early_start env) test start 1 1).

(** [train_and_evaluate(model, data)] *)
Definition train_and_evaluate (model : Darts.LightGBMModel)
           (data : Bundle) : M trace Q :=
  fitted <- call EvFit
              (fit env model (Series.slice_from (-300) (train data))
                   (past_covariates data) (future_covariates data)
                   (val data)) ;;
  backtest_series <- backtest model fitted (test data) ;;
  emit EvPrint ;;; emit EvPrint ;;; emit EvPrint ;;; emit EvPrint ;;;
  precision <- call EvScore (score (test data) backtest_series) ;;
  emit EvLog ;;;
  call EvPlot (show_plot env (test data) backtest_series) ;;;
  emit EvDelModel ;;;
  emit EvEmptyCache ;;;
  ret precision.

Variable data : Bundle.

(** [objective(trial)]; [study] is the global study, here the trials
    stored so far.  The first log line formats [study.best_value]. *)
Definition objective (trials : list Optuna.FrozenTrial)
  : M (Optuna.Trial * trace) Q :=
  model <- on_fst define_model ;;
  precision <- on_snd (train_and_evaluate model data) ;;
  lift (Optuna.best_value trials) ;;;
  on_snd (emit EvLog) ;;;
  on_snd (emit EvLog) ;;;
  ret precision.

(** The sampler of the study: the fresh trial of each number. *)
Variable new_trial : nat -> Optuna.Trial.

(** The body of the script for a given number of trials: optimise
    without a [catch] argument, then log the best parameters and the
    best value.  It starts from the trials loaded from storage. *)
Definition run (n_trials : nat)
  : M (list Optuna.FrozenTrial * trace)
      (list (string * Optuna.value) * Q) :=
  Optuna.optimize new_trial objective Optuna.catch_nothing n_trials ;;;
  bp <- (fun st => (Optuna.best_params (fst st), st)) ;;
  on_snd (emit EvLog) ;;;
  bv <- (fun st => (Optuna.best_value (fst st), st)) ;;
  on_snd (emit EvLog) ;;;
  ret (bp, bv).

(** [study.optimize(objective, n_trials=50, n_jobs=1)] *)
Definition main := run 50.

End Script.

End LightGBM.

(** ** [models/TSMixerModel_deploy.py] *)

Module TSMixer.

Record ModelParams : Type := {
  input_chunk_length : Z;
  output_chunk_length : Z;
  hidden_size : Z;
  dropout : Q
}.

Definition best_params : ModelParams :=
  {| input_chunk_length := 46;
     output_chunk_length := 12;
     hidden_size := 120;
     dropout := 1737067007307284 # 10000000000000000 |}.

(** A fitted model: [model.predict(n, series)]. *)
Definition Predictor : Type := Z -> Series.t -> result Series.t.

Record Collaborators : Type := {
  fit : ModelParams -> Bundle -> result Predictor;
  plot_metrics : Series.t -> Series.t -> Z -> result unit
}.

Section Script.

(** [TIMESERIES_LENGTH["test_length"]] *)
Variable pred_steps : Z.

(** [torch.sigmoid] on one element, as the floating-point routine
    computes it. *)
Variable sigmoid : Q -> Q.

Variable env : Collaborators.

Local Open Scope monad_scope.

Definition sigmoid_torch (x : list (list Q)) : list (list Q) :=
  map (map sigmoid) x.

(** [true_labels.flatten().astype(int)] *)
Definition true_labels (test : Series.t) : list Z :=
  map Np.astype_int
      (Series.flatten
         (Series.values (Series.slice_from (- pred_steps) test))).

(** [(sigmoid_pred > 0.5).flatten().astype(int)] *)
Definition binary_predictions (pred_series : Series.t) : list Z :=
  map Np.int_of_bool
      (Series.flatten_bool
         (map (map (fun p => Np.gt p (1 # 2)))
              (sigmoid_torch (Series.values pred_series)))).

Definition score (test pred_series : Series.t) : result Q :=
  Sk.precision_score (true_labels test) (binary_predictions pred_series).

Definition train_and_evaluate (model : ModelParams) (data : Bundle)
  : M trace Q :=
  fitted <- call EvFit (fit env model data) ;;
  emit EvEmptyCache ;;;
  pred_input <- lift (Series.getitem_to (- pred_steps) (test data)) ;;
  pred_series <- call EvPredict (fitted pred_steps pred_input) ;;
  precision <- call EvScore (score (test data) pred_series) ;;
  emit EvLog ;;;
  call EvPlot (plot_metrics env pred_series (test data) pred_steps) ;;;
  ret precision.

End Script.

End TSMixer.

(** ** Concrete inputs used as witnesses *)

Module Scenario.

Local Open Scope string_scope.

Definition point (t : Z) (v : Q) : Series.row := (t, [v]).

(** A test series whose last four labels are [1, 0, 1, 1]. *)
Definition test4 : Series.t :=
  [point 1 1; point 2 0; point 3 1; point 4 1].

(** Backtest output [0.9, 0.1, 0.6, 0.4] on the time stamps of
    [test4]. *)
Definition backtest4 : Series.t :=
  [point 1 (9 # 10); point 2 (1 # 10); point 3 (6 # 10); point 4 (4 # 10)].


(** A test series with the labels [0, 1, 2, 1]. *)
Definition test_multiclass : Series.t :=
  [point 1 0; point 2 1; point 3 2; point 4 1].

(** A test series holding the fractional values [0.3] and [0.7]. *)
Definition test_fractional : Series.t :=
  [point 1 1; point 2 (3 # 10); point 3 1; point 4 (7 # 10)].

(** Three rows that come before the rows of a test series, so that a
    model of up to three lags has the history it needs to forecast
    them. *)
Definition warmup : Series.t :=
  [point (-2) 0; point (-1) 1; point 0 0].

(** A fitted model whose forecast depends only on how long the
    history is: [0.9, 0.1, 0.6, 0.4] at the four points that follow the
    three rows of [warmup]. *)
Definition forecaster4 : Darts.Forecaster :=
  fun history _ =>
    [nth (length history - 3) [9 # 10; 1 # 10; 6 # 10; 4 # 10] (0 # 1)].

(** The bundle whose test partition ends with the rows [test], after
    the rows of [warmup]. *)
Definition bundle (test : Series.t) : Bundle :=
  {| train := test4; val := test4; test := (warmup ++ test)%list;
     past_covariates := test4; future_covariates := test4 |}.

(** Fitting and plotting both succeed. *)
Definition env_ok : LightGBM.Collaborators :=
  {| LightGBM.fit := fun _ _ _ _ _ => Ok forecaster4;
     LightGBM.show_plot := fun _ _ => Ok tt;
     LightGBM.moves_early_start := true |}.

(** Plotting raises. *)
Definition env_plot_raises : LightGBM.Collaborators :=
  {| LightGBM.fit := fun _ _ _ _ _ => Ok forecaster4;
     LightGBM.show_plot := fun _ _ => Raise ValueError;
     LightGBM.moves_early_start := true |}.

(** Fitting raises [TrainingError] for the configuration with
    [lags = 3], and succeeds for every other one. *)
Definition env_training_error : LightGBM.Collaborators :=
  {| LightGBM.fit := fun m _ _ _ _ =>
       if (Darts.lags m =? 3)%Z then Raise TrainingError else Ok forecaster4;
     LightGBM.show_plot := fun _ _ => Ok tt;
     LightGBM.moves_early_start := true |}.

(** A sampler that proposes the lower bound of every range. *)
Definition trial_low (n : nat) : Optuna.Trial :=
  {| Optuna.number := n;
     Optuna.draw_int := fun _ low _ => low;
     Optuna.draw_float := fun _ low _ => low;
     Optuna.params := [];
     Optuna.distributions := [] |}.

(** A sampler that proposes the trial number for [lags] and the lower
    bound of every other range. *)
Definition trial_numbered (n : nat) : Optuna.Trial :=
  {| Optuna.number := n;
     Optuna.draw_int := fun name low _ =>
       if String.eqb name "lags" then Z.of_nat n else low;
     Optuna.draw_float := fun _ low _ => low;
     Optuna.params := [];
     Optuna.distributions := [] |}.

(** The configuration built from the lower bounds. *)
Definition model_low : Darts.LightGBMModel :=
  {| Darts.verbose := true;
     Darts.lags := 1;
     Darts.lags_past_covariates := 1;
     Darts.lags_future_covariates := [0; -1; -2];
     Darts.output_chunk_length := 1;
     Darts.learning_rate := 1 # 1000;
     Darts.num_leaves := 31;
     Darts.n_estimators := 50;
     Darts.min_child_samples := 20;
     Darts.subsample := 6 # 10;
     Darts.colsample_bytree := 6 # 10;
     Darts.objective := "binary";
     Darts.random_state := 42 |}.

(** A study reloaded from storage with one completed trial. *)
Definition stored : list Optuna.FrozenTrial :=
  [ {| Optuna.ft_number := 0; Optuna.ft_state := Optuna.COMPLETE;
       Optuna.ft_value := Some (1 # 2); Optuna.ft_params := [] |} ].

Definition states (trials : list Optuna.FrozenTrial)
  : list Optuna.TrialState :=
  map Optuna.ft_state trials.

End Scenario.


(** The events of an evaluation in which every step succeeds. *)
Definition full_trace : trace :=
  [EvFit; EvBacktest; EvPrint; EvPrint; EvPrint; EvPrint; EvScore; EvLog;
   EvPlot; EvDelModel; EvEmptyCache].

(** ** Vocabulary of the statements *)

(** What one binarised element satisfies with respect to the value [p]
    it was computed from. *)
Definition strict_threshold (p : Q) (b : Z) : Prop :=
  (b = 1 <-> (1 # 2 < p)%Q) /\
  (b = 0 <-> (p <= 1 # 2)%Q) /\
  ((p == 1 # 2)%Q -> b = 0) /\
  (b = 0 \/ b = 1).

(** The label derived from the value [v]. *)
Definition truncated_label (v : Q) (l : Z) : Prop :=
  l = Np.astype_int v /\
  ((0 <= v)%Q -> l = Qfloor v) /\
  ((v <= 0)%Q -> l = Qceiling v) /\
  ((0 < v)%Q -> (v < 1)%Q -> l = 0).

(** The series in which every value is replaced by the integer it is
    cast to. *)
Definition coerced (s : Series.t) : Series.t :=
  map (fun r : Series.row =>
         (fst r, map (fun v => inject_Z (Np.astype_int v)) (snd r))) s.

(** A label or prediction of a binary problem. *)
Definition binary (z : Z) : Prop := z = 0 \/ z = 1.

Local Open Scope string_scope.
Local Open Scope list_scope.

(** The distributions [define_model] records when every range is
    accepted. *)
Definition search_space (P : Z) : list (string * Optuna.distribution) :=
  [("lags", Optuna.IntDistribution 1 64);
   ("lags_past_covariates", Optuna.IntDistribution 1 64);
   ("output_chunk_length", Optuna.IntDistribution 1 (Z.min 20 P));
   ("learning_rate", Optuna.FloatDistribution (1 # 1000) (1 # 10));
   ("num_leaves", Optuna.IntDistribution 31 256);
   ("n_estimators", Optuna.IntDistribution 50 500);
   ("min_child_samples", Optuna.IntDistribution 20 100);
   ("subsample", Optuna.FloatDistribution (6 # 10) 1);
   ("colsample_bytree", Optuna.FloatDistribution (6 # 10) 1)].

(** The best trial, when there is one, is a completed trial of the
    study whose score no completed trial exceeds; there is none only
    when no trial has completed. *)
Definition best_invariant (trials : list Optuna.FrozenTrial) : Prop :=
  match Optuna.best_trial trials with
  | Some b =>
      In b trials /\
      exists bv, Optuna.score_of b = Some bv /\
        forall u v, In u trials -> Optuna.score_of u = Some v -> (v <= bv)%Q
  | None => forall u, In u trials -> Optuna.score_of u = None
  end.

(** What a run of the loop without [catch] appends to the study: only
    completed trials when it returns; completed trials followed by one
    failed trial, fewer trials than were asked for being run, when it
    raises. *)
Definition stops_at_first_failure (n_trials : nat) (r : result unit)
           (added : list Optuna.FrozenTrial) : Prop :=
  match r with
  | Ok _ =>
      length added = n_trials /\
      forallb Optuna.is_complete added = true
  | Raise _ =>
      exists done last,
        added = done ++ [last] /\
        (length done < n_trials)%nat /\
        forallb Optuna.is_complete done = true /\
        Optuna.is_fail last = true
  end.

(** ** Further vocabulary *)

(** The sampler of a trial proposes inside the range it is given. *)
Definition sampler_in_range (t : Optuna.Trial) : Prop :=
  (forall name low high,
      low <= high ->
      low <= Optuna.draw_int t name low high <= high) /\
  (forall name low high,
      (low <= high)%Q ->
      (low <= Optuna.draw_float t name low high)%Q /\
      (Optuna.draw_float t name low high <= high)%Q).

(** The parameters a trial holds after [define_model] built [m]. *)
Definition params_of (m : Darts.LightGBMModel)
  : list (string * Optuna.value) :=
  [("lags", Optuna.VInt (Darts.lags m));
   ("lags_past_covariates", Optuna.VInt (Darts.lags_past_covariates m));
   ("output_chunk_length", Optuna.VInt (Darts.output_chunk_length m));
   ("learning_rate", Optuna.VFloat (Darts.learning_rate m));
   ("num_leaves", Optuna.VInt (Darts.num_leaves m));
   ("n_estimators", Optuna.VInt (Darts.n_estimators m));
   ("min_child_samples", Optuna.VInt (Darts.min_child_samples m));
   ("subsample", Optuna.VFloat (Darts.subsample m));
   ("colsample_bytree", Optuna.VFloat (Darts.colsample_bytree m))].

(** The model the parameters [ps] of a trial describe: the constants of
    [define_model] and the values found under the nine names. *)
Definition int_param (name : string) (ps : list (string * Optuna.value))
  : option Z :=
  match Optuna.lookup name ps with
  | Some (Optuna.VInt z) => Some z
  | _ => None
  end.

Definition float_param (name : string) (ps : list (string * Optuna.value))
  : option Q :=
  match Optuna.lookup name ps with
  | Some (Optuna.VFloat q) => Some q
  | _ => None
  end.

Definition model_of_params (ps : list (string * Optuna.value))
  : option Darts.LightGBMModel :=
  match int_param "lags" ps, int_param "lags_past_covariates" ps,
        int_param "output_chunk_length" ps, float_param "learning_rate" ps,
        int_param "num_leaves" ps, int_param "n_estimators" ps,
        int_param "min_child_samples" ps, float_param "subsample" ps,
        float_param "colsample_bytree" ps with
  | Some l, Some lp, Some o, Some lr, Some nl, Some ne, Some mc, Some su,
    Some co =>
      Some {| Darts.verbose := true;
              Darts.lags := l;
              Darts.lags_past_covariates := lp;
              Darts.lags_future_covariates := [0; -1; -2];
              Darts.output_chunk_length := o;
              Darts.learning_rate := lr;
              Darts.num_leaves := nl;
              Darts.n_estimators := ne;
              Darts.min_child_samples := mc;
              Darts.subsample := su;
              Darts.colsample_bytree := co;
              Darts.objective := "binary";
              Darts.random_state := 42 |}
  | _, _, _, _, _, _, _, _, _ => None
  end.

(** [l] is an initial segment of [full]. *)
Definition is_prefix {A} (l full : list A) : Prop :=
  exists rest, full = l ++ rest.

(** The events of a TSMixer evaluation in which every step succeeds. *)
Definition tsmixer_full_trace : trace :=
  [EvFit; EvEmptyCache; EvPredict; EvScore; EvLog; EvPlot].

(** The bundle [data] with another training series. *)
Definition with_train (s : Series.t) (data : Bundle) : Bundle :=
  {| train := s; val := val data; test := test data;
     past_covariates := past_covariates data;
     future_covariates := future_covariates data |}.

(** Every row of a series has [w] components. *)
Definition width (w : nat) (s : Series.t) : Prop :=
  Forall (fun r : Series.row => length (snd r) = w) s.

(** What one evaluation has done when the backtest call is rejected,
    and when the scoring call is. *)
Definition stopped_at_backtest_or_scoring (done : trace) : Prop :=
  done = [EvFit; EvBacktest] \/
  done = [EvFit; EvBacktest; EvPrint; EvPrint; EvPrint; EvPrint; EvScore].

(** ** Further concrete inputs *)

Module Cases.

(** A training series of 300 rows. *)
Definition long_train : Series.t :=
  map (fun i => Scenario.point (Z.of_nat i) 0) (seq 0 300).

Definition long_bundle (test : Series.t) : Bundle :=
  {| train := long_train; val := Scenario.test4; test := test;
     past_covariates := Scenario.test4;
     future_covariates := Scenario.test4 |}.

(** A stand-in for the sigmoid routine: one half at 0, 1 above and 0
    below. *)
Definition sigmoid_step (x : Q) : Q :=
  if Qle_bool x 0 then (if Qle_bool 0 x then 1 # 2 else 0) else 1.

(** A fitted TSMixer model that forecasts the raw outputs 2 and -1 for
    the time stamps 3 and 4. *)
Definition predictor2 : TSMixer.Predictor :=
  fun _ _ => Ok [Scenario.point 3 2; Scenario.point 4 (-1)].

Definition tsmixer_env : TSMixer.Collaborators :=
  {| TSMixer.fit := fun _ _ => Ok predictor2;
     TSMixer.plot_metrics := fun _ _ _ => Ok tt |}.

(** Fitting and plotting succeed, and the installed darts rejects a
    backtest start it cannot forecast. *)
Definition env_rejecting : LightGBM.Collaborators :=
  {| LightGBM.fit := fun _ _ _ _ _ => Ok Scenario.forecaster4;
     LightGBM.show_plot := fun _ _ => Ok tt;
     LightGBM.moves_early_start := false |}.

End Cases.

(** ** The plots of the TSMixer script *)

Module Plotting.

(** The calls into [matplotlib.pyplot], in program order: a new figure,
    the loss curves, the actual and the predicted values of one
    component, the legend, showing and closing the current figure. *)
Inductive action : Type :=
| Figure
| PlotTrainLoss
| PlotValLoss
| PlotActual (stock : string)
| PlotPredicted (stock : string)
| Legend
| Show
| Close.

(** The body of the loop over the components. *)
Definition stock_figure (stock : string) : list action :=
  [Figure; PlotActual stock; PlotPredicted stock; Legend; Show; Close].

(** [plot_metrics(train_loss, val_loss, pred_series, test_data,
    pred_steps)] of the TSMixer script, as the sequence of its calls;
    [columns] is [test_data.columns]. *)
Definition plot_metrics (columns : list string) : list action :=
  [Figure; PlotTrainLoss; PlotValLoss; Legend; Show; Close] ++
  flat_map stock_figure (Series.slice_to 3 columns).

(** The number of figures open after a sequence of calls, [n] being
    open before it. *)
Fixpoint open_figures (n : nat) (acts : list action) : nat :=
  match acts with
  | [] => n
  | Figure :: rest => open_figures (S n) rest
  | Close :: rest => open_figures (Nat.pred n) rest
  | _ :: rest => open_figures n rest
  end.

(** The number of figures created. *)
Fixpoint figures (acts : list action) : nat :=
  match acts with
  | [] => O
  | Figure :: rest => S (figures rest)
  | _ :: rest => figures rest
  end.

(** The components whose predicted values are plotted, in order. *)
Fixpoint predicted_stocks (acts : list action) : list string :=
  match acts with
  | [] => []
  | PlotPredicted stock :: rest => stock :: predicted_stocks rest
  | _ :: rest => predicted_stocks rest
  end.

(** The components whose actual values are plotted, in order. *)
Fixpoint actual_stocks (acts : list action) : list string :=
  match acts with
  | [] => []
  | PlotActual stock :: rest => stock :: actual_stocks rest
  | _ :: rest => actual_stocks rest
  end.

End Plotting.

(** Closes the goals about one concrete trace. *)
Ltac trace_case :=
  repeat split; intros;
  try reflexivity;
  try (eexists; reflexivity);
  try (simpl in *; congruence).

(** * Properties *)

(** ** Element-wise operations *)

Lemma gt_true_iff (x t : Q) : Np.gt x t = true <-> (t < x)%Q.
Proof.
  unfold Np.gt. rewrite negb_true_iff, <- not_true_iff_false, Qle_bool_iff.
  split; [apply Qnot_le_lt | apply Qlt_not_le].
Qed.

Lemma gt_false_iff (x t : Q) : Np.gt x t = false <-> (x <= t)%Q.
Proof.
  unfold Np.gt. rewrite negb_false_iff. apply Qle_bool_iff.
Qed.

Lemma int_of_bool_one (b : bool) : Np.int_of_bool b = 1 <-> b = true.
Proof. destruct b; simpl; split; intro H; try reflexivity; discriminate. Qed.

Lemma int_of_bool_zero (b : bool) : Np.int_of_bool b = 0 <-> b = false.
Proof. destruct b; simpl; split; intro H; try reflexivity; discriminate. Qed.

Lemma int_of_bool_binary (b : bool) :
  Np.int_of_bool b = 0 \/ Np.int_of_bool b = 1.
Proof. destruct b; simpl; auto. Qed.

Lemma threshold_element (p : Q) :
  strict_threshold p (Np.int_of_bool (Np.gt p (1 # 2))).
Proof.
  unfold strict_threshold. repeat split.
  - intro H. apply gt_true_iff, int_of_bool_one, H.
  - intro H. apply int_of_bool_one, gt_true_iff, H.
  - intro H. apply gt_false_iff, int_of_bool_zero, H.
  - intro H. apply int_of_bool_zero, gt_false_iff, H.
  - intro H. apply int_of_bool_zero, gt_false_iff. rewrite H. apply Qle_refl.
  - apply int_of_bool_binary.
Qed.

Lemma Forall2_map_r {A B} (R : A -> B -> Prop) (f : A -> B) (l : list A) :
  (forall a, R a (f a)) -> Forall2 R l (map f l).
Proof.
  intro H. induction l as [|a l IH]; simpl; constructor; auto.
Qed.

Lemma tsmixer_binary_predictions_flat (sigmoid : Q -> Q) (s : Series.t) :
  TSMixer.binary_predictions sigmoid s =
  map (fun x => Np.int_of_bool (Np.gt (sigmoid x) (1 # 2)))
      (Series.flatten (Series.values s)).
Proof.
  unfold TSMixer.binary_predictions, TSMixer.sigmoid_torch,
    Series.flatten_bool, Series.flatten.
  rewrite <- !concat_map, !map_map. reflexivity.
Qed.

(** C8.  Binarisation is a strict comparison with 0.5, in both scripts:
    each binary prediction is 1 exactly when the value compared (the
    forecast value, or its sigmoid in the TSMixer script) is greater
    than 0.5, and a value equal to 0.5 gives 0. *)
Theorem binarization_strict_threshold :
  (forall probs : list Q,
      Forall2 strict_threshold probs (LightGBM.binary_predictions probs)) /\
  (forall (sigmoid : Q -> Q) (pred_series : Series.t),
      Forall2 (fun x b => strict_threshold (sigmoid x) b)
              (Series.flatten (Series.values pred_series))
              (TSMixer.binary_predictions sigmoid pred_series)) /\
  Np.int_of_bool (Np.gt (1 # 2) (1 # 2)) = 0.
Proof.
  split; [|split].
  - intro probs. unfold LightGBM.binary_predictions.
    apply Forall2_map_r. intro p. apply threshold_element.
  - intros sigmoid s. rewrite tsmixer_binary_predictions_flat.
    apply (Forall2_map_r (fun x b => strict_threshold (sigmoid x) b)).
    intro x. apply threshold_element.
  - reflexivity.
Qed.

(** One direction of the relation between the TSMixer predictions and
    the sign of the raw outputs, for any sigmoid routine that is
    monotone and maps 0 to one half: a positive prediction comes from a
    positive raw output.  The converse is a matter of how the routine
    rounds just above 0 and is not decided here. *)
Section Sigmoid.

Variable sigmoid : Q -> Q.
Hypothesis sigmoid_monotone :
  forall x y : Q, (x <= y)%Q -> (sigmoid x <= sigmoid y)%Q.
Hypothesis sigmoid_zero : (sigmoid 0 == 1 # 2)%Q.

Lemma positive_prediction_positive_output (x : Q) :
  Np.int_of_bool (Np.gt (sigmoid x) (1 # 2)) = 1 -> (0 < x)%Q.
Proof.
  intro H. apply int_of_bool_one, gt_true_iff in H.
  apply Qnot_le_lt. intro Hx.
  apply sigmoid_monotone in Hx. rewrite sigmoid_zero in Hx.
  exact (Qlt_not_le _ _ H Hx).
Qed.

End Sigmoid.

(** ** Label derivation *)

Lemma astype_int_floor (x : Q) :
  (0 <= x)%Q -> Np.astype_int x = Qfloor x.
Proof.
  destruct x as [n d]. unfold Qle, Np.astype_int, Qfloor. simpl.
  intro H. apply Z.quot_div_nonneg; lia.
Qed.

Lemma astype_int_ceiling (x : Q) :
  (x <= 0)%Q -> Np.astype_int x = Qceiling x.
Proof.
  destruct x as [n d]. unfold Qle, Np.astype_int, Qceiling, Qfloor. simpl.
  intro H.
  assert (E : n = - (- n)) by lia.
  rewrite E at 1. rewrite Z.quot_opp_l by lia.
  rewrite Z.quot_div_nonneg by lia. reflexivity.
Qed.

Lemma astype_int_unit_interval (x : Q) :
  (0 < x)%Q -> (x < 1)%Q -> Np.astype_int x = 0.
Proof.
  destruct x as [n d]. unfold Qlt, Np.astype_int. simpl. intros H0 H1.
  apply Z.quot_small. lia.
Qed.

Lemma astype_int_inject (z : Z) : Np.astype_int (inject_Z z) = z.
Proof. unfold Np.astype_int, inject_Z. simpl. apply Z.quot_1_r. Qed.

Lemma truncated_label_astype (v : Q) : truncated_label v (Np.astype_int v).
Proof.
  unfold truncated_label. repeat split.
  - apply astype_int_floor.
  - apply astype_int_ceiling.
  - apply astype_int_unit_interval.
Qed.

Lemma skipn_map {A B} (f : A -> B) (n : nat) (l : list A) :
  skipn n (map f l) = map f (skipn n l).
Proof.
  revert l. induction n as [|n IH]; intros [|a l]; simpl; auto.
Qed.

Lemma slice_from_map {A B} (f : A -> B) (k : Z) (l : list A) :
  Series.slice_from k (map f l) = map f (Series.slice_from k l).
Proof.
  unfold Series.slice_from. rewrite length_map. apply skipn_map.
Qed.

Lemma true_labels_coerced (P : Z) (s : Series.t) :
  LightGBM.true_labels P (coerced s) = LightGBM.true_labels P s.
Proof.
  unfold LightGBM.true_labels, coerced, Series.flatten.
  rewrite slice_from_map.
  induction (Series.slice_from (- P) s) as [|[t v] l IH]; simpl.
  - reflexivity.
  - rewrite !map_app. f_equal; [|exact IH].
    rewrite map_map. apply map_ext. intro q. apply astype_int_inject.
Qed.

(** C10.  The labels are the test values cast to [int], i.e. truncated
    toward zero, one label per value of the tail and whatever the
    values are: a value strictly between 0 and 1 gives the label 0, and
    the score cannot tell a series from the series of its truncated
    values.  The same derivation is used by the TSMixer script. *)
Theorem labels_truncate_without_validation (P : Z) (test : Series.t) :
  Forall2 truncated_label
          (Series.flatten (Series.values (Series.slice_from (- P) test)))
          (LightGBM.true_labels P test) /\
  TSMixer.true_labels P test = LightGBM.true_labels P test /\
  (forall backtest_series,
      LightGBM.score P (coerced test) backtest_series =
      LightGBM.score P test backtest_series).
Proof.
  split; [|split].
  - unfold LightGBM.true_labels. apply Forall2_map_r.
    apply truncated_label_astype.
  - reflexivity.
  - intro b. unfold LightGBM.score. rewrite true_labels_coerced. reflexivity.
Qed.

(** ** Precision *)

Lemma pred_sum_tp_fp (y_true y_pred : list Z) :
  length y_true = length y_pred ->
  Sk.pred_sum y_pred = (Sk.tp_sum y_true y_pred + Sk.fp_sum y_true y_pred)%nat.
Proof.
  revert y_pred.
  induction y_true as [|t ts IH]; intros [|p ps] H; simpl in *;
    try discriminate; try reflexivity.
  injection H as H. rewrite (IH ps H).
  destruct (Sk.eqb1 t), (Sk.eqb1 p); simpl; lia.
Qed.



Lemma binary_predictions_binary (probs : list Q) :
  Forall binary (LightGBM.binary_predictions probs).
Proof.
  unfold LightGBM.binary_predictions.
  induction probs as [|p ps IH]; simpl; constructor; auto.
  apply int_of_bool_binary.
Qed.

Lemma mem_true_iff (z : Z) (l : list Z) : Sk.mem z l = true <-> In z l.
Proof.
  unfold Sk.mem. rewrite existsb_exists. split.
  - intros [x [Hin Hx]]. apply Z.eqb_eq in Hx. subst. exact Hin.
  - intro H. exists z. split; [exact H | apply Z.eqb_refl].
Qed.

Lemma present_labels_binary (y_true y_pred : list Z) :
  Forall binary y_true -> Forall binary y_pred ->
  incl (Sk.present_labels y_true y_pred) [0; 1].
Proof.
  intros Ht Hp z Hz. unfold Sk.present_labels in Hz.
  apply nodup_In, in_app_or in Hz.
  rewrite Forall_forall in Ht, Hp.
  destruct Hz as [Hz|Hz]; [destruct (Ht z Hz) | destruct (Hp z Hz)];
    subst; simpl; auto.
Qed.

(** On binary vectors of one length none of the rejections applies. *)
Lemma precision_score_binary (y_true y_pred : list Z) :
  length y_true = length y_pred ->
  Forall binary y_true -> Forall binary y_pred ->
  Sk.precision_score y_true y_pred =
  Ok (Sk.prf_divide (Sk.tp_sum y_true y_pred) (Sk.pred_sum y_pred)).
Proof.
  intros Hlen Ht Hp. unfold Sk.precision_score.
  rewrite Hlen, Nat.eqb_refl. cbn [negb].
  pose proof (present_labels_binary _ _ Ht Hp) as Hincl.
  assert (Hnd : NoDup (Sk.present_labels y_true y_pred))
    by apply NoDup_nodup.
  pose proof (NoDup_incl_length Hnd Hincl) as Hle. simpl in Hle.
  destruct (Nat.ltb_spec 2 (length (Sk.present_labels y_true y_pred)));
    [lia|].
  destruct (Sk.mem 1 (Sk.present_labels y_true y_pred)) eqn:Hmem;
    [reflexivity|]. cbn [negb andb].
  destruct (Nat.leb_spec 2 (length (Sk.present_labels y_true y_pred)));
    [|reflexivity].
  exfalso.
  assert (Hincl0 : incl (Sk.present_labels y_true y_pred) [0]).
  { intros z Hz. destruct (Hincl z Hz) as [E|[E|[]]]; subst.
    - left. reflexivity.
    - apply mem_true_iff in Hz. congruence. }
  pose proof (NoDup_incl_length Hnd Hincl0) as Hle0. simpl in Hle0. lia.
Qed.

Lemma prf_divide_zero (num : nat) : Sk.prf_divide num 0 = 0%Q.
Proof. reflexivity. Qed.





(** The end-to-end scenario: labels [1, 0, 1, 1] and backtest output
    [0.9, 0.1, 0.6, 0.4] give the predictions [1, 0, 1, 0] and the
    precision 2/2. *)
Example scenario_binary_predictions :
  LightGBM.binary_predictions (LightGBM.probabilities 4 Scenario.backtest4)
  = [1; 0; 1; 0].
Proof. reflexivity. Qed.

Example scenario_precision :
  LightGBM.score 4 Scenario.test4 Scenario.backtest4 = Ok (2 # 2) /\
  (2 # 2 == 1)%Q.
Proof. split; reflexivity. Qed.

(** The values 0.3 and 0.7 both become the label 0. *)
Example scenario_fractional_labels :
  LightGBM.true_labels 4 Scenario.test_fractional = [1; 0; 1; 0].
Proof. reflexivity. Qed.

(** ** Scoring and the time index *)







(** ** Release of the model resources *)

(** C4, as the code has it.  [train_and_evaluate] empties the
    accelerator cache exactly when its result is a score: on the one
    path where fitting, backtest, scoring and plotting all return, and
    then as its last effect; on every path that raises, nothing is
    released. *)
Theorem release_only_on_success (P : Z) (env : LightGBM.Collaborators)
        (model : Darts.LightGBMModel) (data : Bundle) :
  released (snd (LightGBM.train_and_evaluate P env model data [])) =
  is_ok (fst (LightGBM.train_and_evaluate P env model data [])) /\
  (is_ok (fst (LightGBM.train_and_evaluate P env model data [])) = true ->
   snd (LightGBM.train_and_evaluate P env model data []) = full_trace).
Proof.
  unfold LightGBM.train_and_evaluate, bind, call, emit, ret.
  cbn [app].
  destruct (LightGBM.fit env model _ _ _ _) as [fitted|e];
    [|split; [reflexivity | discriminate]].
  unfold LightGBM.backtest, bind, lift, call.
  destruct (Series.index (- P) (Series.time_index (test data))) as [start|e];
    [|split; [reflexivity | discriminate]].
  cbn [app].
  destruct (Darts.historical_forecasts fitted _ _ (test data) start 1 1)
    as [bt|e]; [|split; [reflexivity | discriminate]].
  destruct (LightGBM.score P (test data) bt) as [p|e];
    [|split; [reflexivity | discriminate]].
  destruct (LightGBM.show_plot env (test data) bt) as [u|e];
    [|split; [reflexivity | discriminate]].
  split; reflexivity.
Qed.

(** C4 fails: when scoring raises (labels 0, 1, 2 are rejected by
    [precision_score]) the evaluation ends after the scoring call, and
    when plotting raises it ends after the plotting call; in both runs
    scoring has happened and the cache has not been emptied. *)
Lemma no_release_when_scoring_or_plotting_raises :
  let scoring_raises :=
    LightGBM.train_and_evaluate 4 Scenario.env_ok Scenario.model_low
      (Scenario.bundle Scenario.test_multiclass) [] in
  let plotting_raises :=
    LightGBM.train_and_evaluate 4 Scenario.env_plot_raises Scenario.model_low
      (Scenario.bundle Scenario.test4) [] in
  (fst scoring_raises = Raise ValueError /\
   scored (snd scoring_raises) = true /\
   released (snd scoring_raises) = false) /\
  (fst plotting_raises = Raise ValueError /\
   scored (snd plotting_raises) = true /\
   released (snd plotting_raises) = false).
Proof.
  repeat split; reflexivity.
Qed.

(** ** The rolling-origin backtest *)


Lemma position_nth (idx : list Z) (i : nat) :
  NoDup idx -> (i < length idx)%nat ->
  Darts.position (nth i idx 0) idx = Some i.
Proof.
  intro Hnd. revert i.
  induction Hnd as [|y idx Hnotin Hnd IH]; intros i Hi; simpl in Hi; [lia|].
  destruct i as [|i]; simpl.
  - rewrite Z.eqb_refl. reflexivity.
  - destruct (Z.eqb_spec y (nth i idx 0)) as [E|E].
    + exfalso. apply Hnotin. rewrite E. apply nth_In. lia.
    + rewrite IH by lia. reflexivity.
Qed.

Lemma index_from_end {A} (d : A) (P : Z) (l : list A) :
  1 <= P <= Z.of_nat (length l) ->
  Series.index (- P) l = Ok (nth (length l - Z.to_nat P) l d).
Proof.
  intro H. unfold Series.index.
  destruct (Z.ltb_spec (- P) 0); [|lia].
  destruct (Z.ltb_spec (Z.of_nat (length l) + - P) 0); [lia|].
  destruct (Z.leb_spec (Z.of_nat (length l)) (Z.of_nat (length l) + - P));
    [lia|]. cbn [orb].
  replace (Z.to_nat (Z.of_nat (length l) + - P))
    with (length l - Z.to_nat P)%nat by lia.
  destruct (nth_error l (length l - Z.to_nat P)) as [x|] eqn:E.
  - f_equal. symmetry. apply nth_error_nth. exact E.
  - apply nth_error_None in E. lia.
Qed.

Lemma slice_from_end {A} (P : Z) (l : list A) :
  1 <= P <= Z.of_nat (length l) ->
  Series.slice_from (- P) l = skipn (length l - Z.to_nat P) l.
Proof.
  intro H. unfold Series.slice_from.
  destruct (Z.ltb_spec (- P) 0); [|lia]. f_equal. lia.
Qed.

Lemma filter_all {A} (f : A -> bool) (l : list A) :
  (forall x, f x = true) -> filter f l = l.
Proof.
  intro H. induction l as [|x l IH]; simpl; [reflexivity|].
  rewrite H, IH. reflexivity.
Qed.

(** With horizon 1 and stride 1 the forecasts run from the later of the
    position of [start] and the first point the model can forecast to
    the end of the series, one per time stamp. *)
Lemma historical_forecasts_from (model : Darts.Forecaster) (lags : nat)
      (moves : bool) (series : Series.t) (i0 : nat) :
  NoDup (Series.time_index series) -> (i0 < length series)%nat ->
  (lags <= i0)%nat \/ moves = true ->
  (Nat.max i0 lags < length series)%nat ->
  Darts.historical_forecasts model lags moves series
    (nth i0 (Series.time_index series) 0) 1 1 =
  Ok (map (fun i => (nth i (Series.time_index series) 0,
                     model (firstn i series) 1%nat))
          (seq (Nat.max i0 lags) (length series - Nat.max i0 lags))).
Proof.
  intros Hnd Hi Hstart Hfirst. unfold Darts.historical_forecasts.
  cbn [Nat.eqb orb].
  rewrite position_nth by (unfold Series.time_index; rewrite ?length_map; auto).
  assert (Hkept : Nat.ltb i0 lags && negb moves = false).
  { destruct Hstart as [H| ->]; [|apply andb_false_r].
    destruct (Nat.ltb_spec i0 lags); [lia | reflexivity]. }
  rewrite Hkept. cbv zeta. cbn [Nat.sub]. rewrite Nat.sub_0_r.
  rewrite filter_all by (intro x; rewrite Nat.mod_1_r; reflexivity).
  destruct (length series - Nat.max i0 lags)%nat as [|k] eqn:Hk; [lia|].
  cbn [seq]. apply f_equal. apply map_ext. intro i.
  rewrite Nat.add_0_r. reflexivity.
Qed.


(** A start the model cannot forecast is rejected by a library that
    does not move it, and by any library when no row of the series can
    be forecast. *)
Lemma historical_forecasts_rejects (model : Darts.Forecaster) (lags : nat)
      (moves : bool) (series : Series.t) (i0 : nat) :
  NoDup (Series.time_index series) -> (i0 < length series)%nat ->
  (i0 < lags)%nat ->
  moves = false \/ (length series <= lags)%nat ->
  Darts.historical_forecasts model lags moves series
    (nth i0 (Series.time_index series) 0) 1 1 = Raise ValueError.
Proof.
  intros Hnd Hi Hearly Hcase. unfold Darts.historical_forecasts.
  cbn [Nat.eqb orb].
  rewrite position_nth by (unfold Series.time_index; rewrite ?length_map; auto).
  destruct (Nat.ltb_spec i0 lags) as [_|H]; [|lia].
  destruct moves; cbn [negb andb]; [|reflexivity].
  destruct Hcase as [H|H]; [discriminate|].
  cbv zeta. cbn [Nat.sub]. rewrite Nat.sub_0_r.
  replace (length series - Nat.max i0 lags)%nat with O by lia.
  reflexivity.
Qed.



(** ** The search space *)

Lemma define_model_accepts (P : Z) (t : Optuna.Trial) :
  1 <= P ->
  exists m,
    fst (LightGBM.define_model P t) = Ok m /\
    Optuna.distributions (snd (LightGBM.define_model P t)) =
    Optuna.distributions t ++ search_space P.
Proof.
  intro H.
  unfold LightGBM.define_model, bind, ret, Optuna.suggest_int,
    Optuna.suggest_float, LightGBM.output_chunk_upper.
  cbn [Z.ltb Z.compare Pos.compare Pos.compare_cont].
  destruct (Z.ltb_spec (Z.min 20 P) 1) as [Hlt|Hge]; [lia|].
  cbn -[Z.min]. eexists. split; [reflexivity|].
  rewrite <- !app_assoc. reflexivity.
Qed.

Lemma define_model_rejects (P : Z) (t : Optuna.Trial) :
  P < 1 ->
  fst (LightGBM.define_model P t) = Raise ValueError /\
  Optuna.distributions (snd (LightGBM.define_model P t)) =
  Optuna.distributions t ++
  [("lags", Optuna.IntDistribution 1 64);
   ("lags_past_covariates", Optuna.IntDistribution 1 64)].
Proof.
  intro H.
  unfold LightGBM.define_model, bind, ret, Optuna.suggest_int,
    Optuna.suggest_float, LightGBM.output_chunk_upper.
  cbn [Z.ltb Z.compare Pos.compare Pos.compare_cont].
  destruct (Z.ltb_spec (Z.min 20 P) 1) as [Hlt|Hge]; [|lia].
  cbn -[Z.min]. split; [reflexivity|].
  rewrite <- !app_assoc. reflexivity.
Qed.

(** C5, as the code has it.  The upper bound of the output horizon is
    [min(20, PRED_STEPS)].  With [PRED_STEPS >= 1] the range
    [1 .. min(20, PRED_STEPS)] is the one proposed from.  With
    [PRED_STEPS < 1] the bound is passed on unchanged, below the lower
    bound 1, and it is the range proposal that rejects it, with
    [ValueError]; the two ranges before it have been recorded, no range
    for the output horizon is, and nothing is swapped. *)
Theorem output_horizon_bound (P : Z) (t : Optuna.Trial) :
  LightGBM.output_chunk_upper P = Z.min 20 P /\
  (1 <= P ->
   exists m,
     fst (LightGBM.define_model P t) = Ok m /\
     Optuna.distributions (snd (LightGBM.define_model P t)) =
       Optuna.distributions t ++ search_space P /\
     Optuna.lookup "output_chunk_length" (search_space P) =
       Some (Optuna.IntDistribution 1 (Z.min 20 P))) /\
  (P < 1 ->
   fst (LightGBM.define_model P t) = Raise ValueError /\
   Optuna.distributions (snd (LightGBM.define_model P t)) =
     Optuna.distributions t ++
     [("lags", Optuna.IntDistribution 1 64);
      ("lags_past_covariates", Optuna.IntDistribution 1 64)]).
Proof.
  split; [reflexivity|]. split.
  - intro H. destruct (define_model_accepts P t H) as [m [H1 H2]].
    exists m. repeat split; assumption.
  - apply define_model_rejects.
Qed.

(** C5, with 7 prediction steps and with none. *)
Lemma output_horizon_bound_witness :
  (1 <= 7 /\
   exists m,
     fst (LightGBM.define_model 7 (Scenario.trial_low 0)) = Ok m /\
     Optuna.lookup "output_chunk_length"
       (Optuna.distributions
          (snd (LightGBM.define_model 7 (Scenario.trial_low 0)))) =
     Some (Optuna.IntDistribution 1 7)) /\
  (0 < 1 /\
   fst (LightGBM.define_model 0 (Scenario.trial_low 0)) = Raise ValueError).
Proof.
  destruct (output_horizon_bound 7 (Scenario.trial_low 0)) as [_ [Hok _]].
  destruct (output_horizon_bound 0 (Scenario.trial_low 0)) as [_ [_ Hbad]].
  split.
  - split; [lia|].
    destruct (Hok ltac:(lia)) as [m [H1 [H2 _]]].
    exists m. split; [exact H1|]. rewrite H2. reflexivity.
  - split; [lia|]. apply Hbad. lia.
Defined.

(** C5 fails: with no prediction step available the configuration is
    rejected with [ValueError], not with [ConfigurationError]. *)
Lemma empty_horizon_is_a_value_error :
  fst (LightGBM.define_model 0 (Scenario.trial_low 0)) = Raise ValueError /\
  fst (LightGBM.define_model 0 (Scenario.trial_low 0))
  <> Raise ConfigurationError.
Proof.
  split; [reflexivity | discriminate].
Qed.

(** ** The best trial of a study *)

Lemma best_trial_snoc (trials : list Optuna.FrozenTrial)
      (t : Optuna.FrozenTrial) :
  Optuna.best_trial (trials ++ [t]) =
  Optuna.update_best (Optuna.best_trial trials) t.
Proof.
  unfold Optuna.best_trial. rewrite fold_left_app. reflexivity.
Qed.

Lemma is_complete_score (t : Optuna.FrozenTrial) :
  Optuna.is_complete t = true <-> exists v, Optuna.score_of t = Some v.
Proof.
  unfold Optuna.is_complete, Optuna.score_of.
  destruct (Optuna.ft_state t), (Optuna.ft_value t); split;
    try (intros [v H]); try intro H; eauto; discriminate.
Qed.

Lemma best_invariant_holds (trials : list Optuna.FrozenTrial) :
  best_invariant trials.
Proof.
  unfold best_invariant.
  induction trials as [|t trials IH] using rev_ind.
  - simpl. intros u [].
  - rewrite best_trial_snoc. unfold Optuna.update_best.
    destruct (Optuna.score_of t) as [v|] eqn:Et.
    + destruct (Optuna.best_trial trials) as [b|].
      * destruct IH as [Hin [bv [Eb Hmax]]]. rewrite Eb.
        destruct (Qle_bool v bv) eqn:Ele; cbn [negb].
        -- split; [apply in_or_app; left; exact Hin|].
           exists bv. split; [exact Eb|].
           intros u w Hu Hw. apply in_app_or in Hu.
           destruct Hu as [Hu|[Hu|[]]]; [eapply Hmax; eauto|].
           subst u. rewrite Et in Hw. injection Hw as <-.
           apply Qle_bool_iff, Ele.
        -- assert (Hlt : (bv < v)%Q).
           { apply Qnot_le_lt. intro Hc. apply Qle_bool_iff in Hc.
             congruence. }
           split; [apply in_or_app; right; left; reflexivity|].
           exists v. split; [exact Et|].
           intros u w Hu Hw. apply in_app_or in Hu.
           destruct Hu as [Hu|[Hu|[]]].
           ++ apply Qle_trans with bv; [eapply Hmax; eauto|].
              apply Qlt_le_weak, Hlt.
           ++ subst u. rewrite Et in Hw. injection Hw as <-.
              apply Qle_refl.
      * split; [apply in_or_app; right; left; reflexivity|].
        exists v. split; [exact Et|].
        intros u w Hu Hw. apply in_app_or in Hu.
        destruct Hu as [Hu|[Hu|[]]].
        -- rewrite (IH u Hu) in Hw. discriminate.
        -- subst u. rewrite Et in Hw. injection Hw as <-. apply Qle_refl.
    + destruct (Optuna.best_trial trials) as [b|].
      * destruct IH as [Hin [bv [Eb Hmax]]].
        split; [apply in_or_app; left; exact Hin|].
        exists bv. split; [exact Eb|].
        intros u w Hu Hw. apply in_app_or in Hu.
        destruct Hu as [Hu|[Hu|[]]]; [eapply Hmax; eauto|].
        subst u. congruence.
      * intros u Hu. apply in_app_or in Hu.
        destruct Hu as [Hu|[Hu|[]]]; [apply IH, Hu | subst u; exact Et].
Qed.

Lemma best_value_inv (trials : list Optuna.FrozenTrial) (bv : Q) :
  Optuna.best_value trials = Ok bv ->
  exists b, Optuna.best_trial trials = Some b /\
            Optuna.score_of b = Some bv.
Proof.
  unfold Optuna.best_value.
  destruct (Optuna.best_trial trials) as [b|]; [|discriminate].
  destruct (Optuna.score_of b) as [v|] eqn:E; [|discriminate].
  intro H. injection H as <-. exists b. auto.
Qed.

Lemma best_value_raises_iff (trials : list Optuna.FrozenTrial) :
  Optuna.best_value trials = Raise ValueError <->
  Optuna.completed trials = [].
Proof.
  pose proof (best_invariant_holds trials) as Hinv.
  unfold best_invariant in Hinv. unfold Optuna.best_value.
  destruct (Optuna.best_trial trials) as [b|].
  - destruct Hinv as [Hin [bv [Esb _]]]. rewrite Esb.
    split; [discriminate|]. intro Hnil. exfalso.
    assert (Hc : In b (Optuna.completed trials)).
    { unfold Optuna.completed. apply filter_In. split; [exact Hin|].
      apply is_complete_score. eauto. }
    rewrite Hnil in Hc. exact Hc.
  - split; [|reflexivity]. intros _.
    unfold Optuna.completed.
    induction trials as [|u l IHl]; [reflexivity|]. simpl.
    assert (Hu : Optuna.is_complete u = false).
    { destruct (Optuna.is_complete u) eqn:E; [|reflexivity].
      apply is_complete_score in E. destruct E as [v Ev].
      rewrite (Hinv u (or_introl eq_refl)) in Ev. discriminate. }
    rewrite Hu. apply IHl. intros w Hw. apply Hinv. right. exact Hw.
Qed.



(** ** The optimisation loop *)

Lemma optimize_stops (new_trial : nat -> Optuna.Trial)
      (objective : list Optuna.FrozenTrial -> M (Optuna.Trial * trace) Q)
      (n_trials : nat) :
  forall trials tr r trials' tr',
    Optuna.optimize new_trial objective Optuna.catch_nothing n_trials
                    (trials, tr) = (r, (trials', tr')) ->
    exists added,
      trials' = trials ++ added /\ stops_at_first_failure n_trials r added.
Proof.
  induction n_trials as [|n IH]; intros trials tr r trials' tr' H.
  - injection H as <- <- <-. exists []. rewrite app_nil_r.
    split; [reflexivity|]. split; reflexivity.
  - cbn [Optuna.optimize] in H.
    destruct (objective trials (new_trial (length trials), tr))
      as [[v|e] [t tr1]].
    + apply IH in H. destruct H as [added [E Hstop]]. subst trials'.
      exists (Optuna.freeze t Optuna.COMPLETE (Some v) :: added).
      split; [rewrite <- app_assoc; reflexivity|].
      destruct r as [u|e]; cbn [stops_at_first_failure] in *.
      * destruct Hstop as [Hl Hc]. split; [simpl; lia|].
        simpl. exact Hc.
      * destruct Hstop as [done [last [E [Hl [Hc Hf]]]]]. subst added.
        exists (Optuna.freeze t Optuna.COMPLETE (Some v) :: done), last.
        split; [reflexivity|]. split; [simpl; lia|].
        split; [simpl; exact Hc | exact Hf].
    + unfold Optuna.catch_nothing in H. injection H as <- <- <-.
      exists [Optuna.freeze t Optuna.FAIL None].
      split; [reflexivity|].
      exists [], (Optuna.freeze t Optuna.FAIL None).
      split; [reflexivity|]. split; [simpl; lia|].
      split; reflexivity.
Qed.

(** The objective reads [study.best_value] after the evaluation, so it
    raises whenever no trial of the study has completed. *)
Lemma objective_needs_a_completed_trial (P : Z)
      (env : LightGBM.Collaborators) (data : Bundle)
      (trials : list Optuna.FrozenTrial) (st : Optuna.Trial * trace) :
  Optuna.completed trials = [] ->
  is_ok (fst (LightGBM.objective P env data trials st)) = false.
Proof.
  intro Hnone.
  apply best_value_raises_iff in Hnone.
  unfold LightGBM.objective, bind, lift. rewrite Hnone.
  destruct st as [t tr]. unfold on_fst.
  destruct (LightGBM.define_model P t) as [[m|e] t1]; [|reflexivity].
  unfold on_snd.
  destruct (LightGBM.train_and_evaluate P env m data tr) as [[p|e] tr1];
    reflexivity.
Qed.

Lemma length_failed_stop (n_trials : nat) (r : result unit)
      (added : list Optuna.FrozenTrial) :
  stops_at_first_failure n_trials r added ->
  (length (Optuna.failed added) <= 1)%nat /\
  (length added <= n_trials)%nat.
Proof.
  assert (Hnone : forall l, forallb Optuna.is_complete l = true ->
                            Optuna.failed l = []).
  { induction l as [|u l IHl]; simpl; [reflexivity|].
    intro H. apply andb_prop in H. destruct H as [Hu Hl].
    unfold Optuna.is_fail, Optuna.is_complete in *.
    destruct (Optuna.ft_state u); [apply IHl, Hl | discriminate]. }
  destruct r as [u|e]; cbn [stops_at_first_failure].
  - intros [Hl Hc]. rewrite (Hnone _ Hc). simpl. lia.
  - intros [done [last [E [Hl [Hc Hf]]]]]. subst added.
    unfold Optuna.failed in *. rewrite filter_app, length_app.
    rewrite (Hnone _ Hc). simpl. rewrite Hf, length_app. simpl. lia.
Qed.

(** C2, as the code has it.  [study.optimize] is called without a
    [catch] argument, so a trial that raises is stored as failed and its
    exception leaves the loop: the study then holds the trials completed
    so far and that one failed trial, the remaining trials are not run,
    and the script ends with the exception before the final report.  A
    run that returns has completed every trial. *)
Theorem study_ends_at_first_failed_trial (P : Z)
        (env : LightGBM.Collaborators) (data : Bundle)
        (new_trial : nat -> Optuna.Trial) (n_trials : nat)
        (trials trials' : list Optuna.FrozenTrial) (tr tr' : trace)
        (r : result unit)
        (Hrun : Optuna.optimize new_trial (LightGBM.objective P env data)
                  Optuna.catch_nothing n_trials (trials, tr)
                = (r, (trials', tr'))) :
  exists added,
    trials' = trials ++ added /\
    stops_at_first_failure n_trials r added /\
    (length (Optuna.failed added) <= 1)%nat /\
    (forall e, r = Raise e ->
       (length added <= n_trials)%nat /\
       LightGBM.run P env data new_trial n_trials (trials, tr) =
       (Raise e, (trials', tr'))).
Proof.
  destruct (optimize_stops _ _ _ _ _ _ _ _ Hrun) as [added [E Hstop]].
  exists added. split; [exact E|]. split; [exact Hstop|].
  destruct (length_failed_stop _ _ _ Hstop) as [Hf Hl].
  split; [exact Hf|].
  intros e He. split; [exact Hl|].
  unfold LightGBM.run, bind. rewrite Hrun, He. reflexivity.
Qed.

(** C2, on a reloaded study and five trials the third of which raises
    [TrainingError] in [fit]. *)
Lemma study_ends_at_first_failed_trial_witness :
  exists trials' tr',
    Optuna.optimize Scenario.trial_numbered
      (LightGBM.objective 4 Scenario.env_training_error
                          (Scenario.bundle Scenario.test4))
      Optuna.catch_nothing 5 (Scenario.stored, [])
    = (Raise TrainingError, (trials', tr')) /\
    exists added,
      trials' = Scenario.stored ++ added /\
      (length (Optuna.failed added) <= 1)%nat /\
      (length added <= 5)%nat.
Proof.
  eexists. eexists. split; [vm_compute; reflexivity|].
  match goal with
  | |- exists added, ?ts = _ ++ added /\ _ =>
      destruct (study_ends_at_first_failed_trial 4
                  Scenario.env_training_error
                  (Scenario.bundle Scenario.test4)
                  Scenario.trial_numbered 5 Scenario.stored ts [] _
                  (Raise TrainingError) ltac:(vm_compute; reflexivity))
        as [added [E [_ [Hf Hr]]]]
  end.
  exists added. split; [exact E|]. split; [exact Hf|].
  exact (proj1 (Hr TrainingError eq_refl)).
Defined.

(** C2 fails: the study is reloaded with one completed trial, five
    trials are asked for and the third one raises [TrainingError] in
    [fit].  The loop raises that error; the run has added two completed
    trials and one failed trial, not four and one, and the fourth and
    fifth trials do not exist. *)
Lemma training_error_on_third_trial_ends_the_study :
  let result :=
    Optuna.optimize Scenario.trial_numbered
      (LightGBM.objective 4 Scenario.env_training_error
                          (Scenario.bundle Scenario.test4))
      Optuna.catch_nothing 5 (Scenario.stored, []) in
  let added := skipn 1 (fst (snd result)) in
  fst result = Raise TrainingError /\
  Scenario.states added = [Optuna.COMPLETE; Optuna.COMPLETE; Optuna.FAIL] /\
  length (Optuna.completed added) = 2%nat /\
  length (Optuna.failed added) = 1%nat /\
  ~ (length (Optuna.completed added) = 4%nat /\
     length (Optuna.failed added) = 1%nat).
Proof.
  vm_compute. repeat split; try reflexivity.
  intros [H _]. discriminate.
Qed.

(** * Further properties *)

(** ** The model and the parameters of its trial *)

Lemma define_model_inv (P : Z) (t t' : Optuna.Trial)
      (m : Darts.LightGBMModel) :
  LightGBM.define_model P t = (Ok m, t') ->
  1 <= Z.min 20 P /\
  m = {| Darts.verbose := true;
         Darts.lags := Optuna.draw_int t "lags" 1 64;
         Darts.lags_past_covariates :=
           Optuna.draw_int t "lags_past_covariates" 1 64;
         Darts.lags_future_covariates := [0; -1; -2];
         Darts.output_chunk_length :=
           Optuna.draw_int t "output_chunk_length" 1 (Z.min 20 P);
         Darts.learning_rate :=
           Optuna.draw_float t "learning_rate" (1 # 1000) (1 # 10);
         Darts.num_leaves := Optuna.draw_int t "num_leaves" 31 256;
         Darts.n_estimators := Optuna.draw_int t "n_estimators" 50 500;
         Darts.min_child_samples :=
           Optuna.draw_int t "min_child_samples" 20 100;
         Darts.subsample := Optuna.draw_float t "subsample" (6 # 10) 1;
         Darts.colsample_bytree :=
           Optuna.draw_float t "colsample_bytree" (6 # 10) 1;
         Darts.objective := "binary";
         Darts.random_state := 42 |} /\
  Optuna.params t' = Optuna.params t ++ params_of m /\
  Optuna.number t' = Optuna.number t.
Proof.
  unfold LightGBM.define_model, bind, ret, Optuna.suggest_int,
    Optuna.suggest_float, LightGBM.output_chunk_upper.
  cbn [Z.ltb Z.compare Pos.compare Pos.compare_cont].
  destruct (Z.ltb_spec (Z.min 20 P) 1) as [Hlt|Hge].
  - cbn -[Z.min]. discriminate.
  - cbn -[Z.min]. intro H. injection H as <- <-.
    split; [exact Hge|]. split; [reflexivity|].
    split; [|reflexivity].
    cbn -[Z.min]. rewrite <- !app_assoc. reflexivity.
Qed.

(** X1.  When [define_model] returns a model, the trial has gained
    exactly the nine named parameters of that model, in the order of
    the dictionary, after the parameters it already held, and keeps its
    number; on a fresh trial the model can be rebuilt from the recorded
    parameters alone. *)
Theorem define_model_records_its_model (P : Z) (t t' : Optuna.Trial)
        (m : Darts.LightGBMModel)
        (Hdef : LightGBM.define_model P t = (Ok m, t')) :
  Optuna.params t' = Optuna.params t ++ params_of m /\
  Optuna.number t' = Optuna.number t /\
  model_of_params (params_of m) = Some m /\
  (Optuna.params t = [] -> model_of_params (Optuna.params t') = Some m).
Proof.
  destruct (define_model_inv P t t' m Hdef) as [_ [Em [Ep En]]].
  split; [exact Ep|]. split; [exact En|].
  assert (Hround : model_of_params (params_of m) = Some m)
    by (rewrite Em; reflexivity).
  split; [exact Hround|].
  intro Hfresh. rewrite Ep, Hfresh. exact Hround.
Qed.

(** X1, on a fresh trial with seven prediction steps. *)
Lemma define_model_records_its_model_witness :
  exists m t',
    LightGBM.define_model 7 (Scenario.trial_low 0) = (Ok m, t') /\
    Optuna.params t' = params_of m /\
    model_of_params (Optuna.params t') = Some m.
Proof.
  eexists. eexists. split; [vm_compute; reflexivity|].
  match goal with
  | |- Optuna.params ?t' = params_of ?m /\ _ =>
      destruct (define_model_records_its_model 7 (Scenario.trial_low 0)
                  t' m ltac:(vm_compute; reflexivity))
        as [H1 [_ [_ H2]]]
  end.
  split; [exact H1 | exact (H2 eq_refl)].
Defined.

(** X2.  With a sampler that proposes inside the range it is given,
    every integer and float parameter of the model built lies in its
    declared range; in particular the output horizon lies between 1 and
    [min(20, PRED_STEPS)], so it never exceeds the prediction steps. *)
Theorem define_model_within_ranges (P : Z) (t t' : Optuna.Trial)
        (m : Darts.LightGBMModel)
        (Hsampler : sampler_in_range t)
        (Hdef : LightGBM.define_model P t = (Ok m, t')) :
  1 <= Darts.lags m <= 64 /\
  1 <= Darts.lags_past_covariates m <= 64 /\
  1 <= Darts.output_chunk_length m <= Z.min 20 P /\
  Darts.output_chunk_length m <= P /\
  31 <= Darts.num_leaves m <= 256 /\
  50 <= Darts.n_estimators m <= 500 /\
  20 <= Darts.min_child_samples m <= 100 /\
  ((1 # 1000 <= Darts.learning_rate m)%Q /\
   (Darts.learning_rate m <= 1 # 10)%Q) /\
  ((6 # 10 <= Darts.subsample m)%Q /\ (Darts.subsample m <= 1)%Q) /\
  ((6 # 10 <= Darts.colsample_bytree m)%Q /\
   (Darts.colsample_bytree m <= 1)%Q).
Proof.
  destruct (define_model_inv P t t' m Hdef) as [Hge [Em _]].
  destruct Hsampler as [Hint Hfloat].
  rewrite Em. cbn -[Z.min].
  pose proof (Hint "output_chunk_length" 1 (Z.min 20 P) Hge) as Ho.
  repeat split;
    try (apply Hint; lia);
    try (apply Hfloat; discriminate);
    lia.
Qed.

(** X2, with the sampler that proposes the lower bounds. *)
Lemma define_model_within_ranges_witness :
  sampler_in_range (Scenario.trial_low 0) /\
  exists m t',
    LightGBM.define_model 7 (Scenario.trial_low 0) = (Ok m, t') /\
    1 <= Darts.output_chunk_length m <= 7.
Proof.
  assert (Hs : sampler_in_range (Scenario.trial_low 0)).
  { split; intros name low high H; simpl.
    - lia.
    - split; [apply Qle_refl | exact H]. }
  split; [exact Hs|].
  eexists. eexists. split; [vm_compute; reflexivity|].
  match goal with
  | |- 1 <= Darts.output_chunk_length ?m <= 7 =>
      destruct (define_model_within_ranges 7 (Scenario.trial_low 0)
                  _ m Hs ltac:(vm_compute; reflexivity))
        as [_ [_ [[H1 _] [H2 _]]]]
  end.
  split; [exact H1 | exact H2].
Defined.

(** ** The steps of [train_and_evaluate] *)

(** The evaluation spelled out step by step, from any earlier trace. *)
Lemma train_and_evaluate_steps (P : Z) (env : LightGBM.Collaborators)
      (model : Darts.LightGBMModel) (data : Bundle) (tr : trace) :
  LightGBM.train_and_evaluate P env model data tr =
  match LightGBM.fit env model (Series.slice_from (-300) (train data))
          (past_covariates data) (future_covariates data) (val data) with
  | Raise e => (Raise e, tr ++ [EvFit])
  | Ok fitted =>
    match Series.index (- P) (Series.time_index (test data)) with
    | Raise e => (Raise e, tr ++ [EvFit])
    | Ok start =>
      match Darts.historical_forecasts fitted (Z.to_nat (Darts.lags model))
              (LightGBM.moves_early_start env) (test data) start 1 1 with
      | Raise e => (Raise e, tr ++ [EvFit; EvBacktest])
      | Ok bt =>
        match LightGBM.score P (test data) bt with
        | Raise e =>
            (Raise e,
             tr ++ [EvFit; EvBacktest; EvPrint; EvPrint; EvPrint; EvPrint;
                    EvScore])
        | Ok p =>
          match LightGBM.show_plot env (test data) bt with
          | Raise e =>
              (Raise e,
               tr ++ [EvFit; EvBacktest; EvPrint; EvPrint; EvPrint; EvPrint;
                      EvScore; EvLog; EvPlot])
          | Ok _ => (Ok p, tr ++ full_trace)
          end
        end
      end
    end
  end.
Proof.
  unfold LightGBM.train_and_evaluate, LightGBM.backtest, bind, call, emit,
    ret, lift, full_trace.
  destruct (LightGBM.fit env model _ _ _ _) as [fitted|e]; [|reflexivity].
  destruct (Series.index (- P) (Series.time_index (test data)))
    as [start|e]; [|reflexivity].
  destruct (Darts.historical_forecasts fitted _ _ (test data) start 1 1)
    as [bt|e]; [|rewrite <- !app_assoc; reflexivity].
  destruct (LightGBM.score P (test data) bt) as [p|e];
    [|rewrite <- !app_assoc; reflexivity].
  destruct (LightGBM.show_plot env (test data) bt) as [u|e];
    rewrite <- !app_assoc; reflexivity.
Qed.

(** X3.  Whatever the collaborators do, the effects of one evaluation
    are an initial segment of the fixed sequence fit, backtest, four
    prints, scoring, log, plot, delete, empty-cache, added after the
    earlier trace: fitting is always attempted, no step runs before the
    steps written above it, and the whole sequence has run exactly when
    a score is returned. *)
Theorem train_and_evaluate_effects_in_order (P : Z)
        (env : LightGBM.Collaborators) (model : Darts.LightGBMModel)
        (data : Bundle) (tr : trace) :
  exists done : trace,
    snd (LightGBM.train_and_evaluate P env model data tr) = tr ++ done /\
    is_prefix done full_trace /\
    done <> [] /\
    (is_ok (fst (LightGBM.train_and_evaluate P env model data tr)) = true
     <-> done = full_trace).
Proof.
  rewrite train_and_evaluate_steps. unfold is_prefix, full_trace.
  destruct (LightGBM.fit env model _ _ _ _) as [fitted|e].
  2:{ exists [EvFit]. repeat split; try discriminate. eexists. reflexivity. }
  destruct (Series.index (- P) (Series.time_index (test data)))
    as [start|e].
  2:{ exists [EvFit]. repeat split; try discriminate. eexists. reflexivity. }
  destruct (Darts.historical_forecasts fitted _ _ (test data) start 1 1)
    as [bt|e].
  2:{ eexists. split; [reflexivity|].
      repeat split; try discriminate. eexists. reflexivity. }
  destruct (LightGBM.score P (test data) bt) as [p|e].
  2:{ eexists. split; [reflexivity|].
      repeat split; try discriminate. eexists. reflexivity. }
  destruct (LightGBM.show_plot env (test data) bt) as [u|e].
  2:{ eexists. split; [reflexivity|].
      repeat split; try discriminate. eexists. reflexivity. }
  eexists. split; [reflexivity|].
  repeat split; try discriminate. exists []. reflexivity.
Qed.

(** ** The window of the backtest at its edges *)

Lemma index_out_of_range {A} (k : Z) (l : list A) :
  k < - Z.of_nat (length l) \/ Z.of_nat (length l) <= k ->
  Series.index k l = Raise IndexError.
Proof.
  intro H. unfold Series.index.
  destruct (Z.ltb_spec k 0).
  - destruct (Z.ltb_spec (Z.of_nat (length l) + k) 0); [reflexivity|lia].
  - destruct (Z.ltb_spec k 0); [lia|].
    destruct (Z.leb_spec (Z.of_nat (length l)) k); [reflexivity|lia].
Qed.

(** X4.  When [PRED_STEPS] exceeds the length of the test series (or is
    at most minus that length; always, when the test series is empty),
    the start of the backtest cannot be looked up: the evaluation raises
    [IndexError] after the model has been fitted and before any
    forecast is made. *)
Theorem window_longer_than_test (P : Z) (env : LightGBM.Collaborators)
        (model : Darts.LightGBMModel) (data : Bundle) (tr : trace)
        (fitted : Darts.Forecaster)
        (Hfit : LightGBM.fit env model
                  (Series.slice_from (-300) (train data))
                  (past_covariates data) (future_covariates data)
                  (val data) = Ok fitted)
        (Hlong : Z.of_nat (length (test data)) < P \/
                 P <= - Z.of_nat (length (test data))) :
  LightGBM.train_and_evaluate P env model data tr =
  (Raise IndexError, tr ++ [EvFit]).
Proof.
  rewrite train_and_evaluate_steps, Hfit.
  rewrite index_out_of_range; [reflexivity|].
  unfold Series.time_index. rewrite length_map.
  unfold Series.row in *. lia.
Qed.

(** X4, with eight prediction steps on a test series of seven rows. *)
Lemma window_longer_than_test_witness :
  Z.of_nat (length (test (Scenario.bundle Scenario.test4))) < 8 /\
  LightGBM.train_and_evaluate 8 Scenario.env_ok Scenario.model_low
    (Scenario.bundle Scenario.test4) [] = (Raise IndexError, [EvFit]).
Proof.
  split; [simpl; lia|].
  apply (window_longer_than_test 8 Scenario.env_ok Scenario.model_low
           (Scenario.bundle Scenario.test4) [] Scenario.forecaster4).
  - reflexivity.
  - left. simpl. lia.
Defined.

Lemma slice_from_zero {A} (l : list A) : Series.slice_from (- 0) l = l.
Proof.
  unfold Series.slice_from. cbn [Z.opp Z.ltb Z.compare].
  rewrite Z.min_l by lia. reflexivity.
Qed.

(** X5.  With [PRED_STEPS = 0] the window is not empty but the whole
    test series: [-0] is [0], so the backtest is started at the first
    time stamp of the test series, the labels are those of all its
    rows, and the probabilities are all rows of the backtest output. *)
Theorem zero_steps_take_the_whole_series (test : Series.t)
        (Hnonempty : test <> []) :
  (exists first rest,
      Series.time_index test = first :: rest /\
      Series.index (- 0) (Series.time_index test) = Ok first) /\
  Series.slice_from (- 0) test = test /\
  length (LightGBM.true_labels 0 test) =
    length (Series.flatten (Series.values test)) /\
  LightGBM.true_labels 0 test =
    map Np.astype_int (Series.flatten (Series.values test)) /\
  (forall backtest_series,
      LightGBM.probabilities 0 backtest_series =
      Series.flatten (Series.values backtest_series)).
Proof.
  split; [|split; [|split; [|split]]].
  - destruct test as [|[t0 v0] test]; [congruence|].
    exists t0, (Series.time_index test). split; reflexivity.
  - apply slice_from_zero.
  - unfold LightGBM.true_labels.
    rewrite slice_from_zero, length_map. reflexivity.
  - unfold LightGBM.true_labels. rewrite slice_from_zero. reflexivity.
  - intro bt. unfold LightGBM.probabilities.
    rewrite slice_from_zero. reflexivity.
Qed.

(** X5, on the four-point test series. *)
Lemma zero_steps_take_the_whole_series_witness :
  Scenario.test4 <> [] /\
  Series.index (- 0) (Series.time_index Scenario.test4) = Ok 1 /\
  length (LightGBM.true_labels 0 Scenario.test4) = 4%nat.
Proof.
  assert (Hne : Scenario.test4 <> []) by discriminate.
  split; [exact Hne|].
  destruct (zero_steps_take_the_whole_series Scenario.test4 Hne)
    as [[first [rest [E Hidx]]] [_ [Hlen _]]].
  split.
  - rewrite Hidx. f_equal. simpl in E. congruence.
  - rewrite Hlen. reflexivity.
Defined.

(** ** A complete evaluation *)

Lemma length_flatten_width (w : nat) (s : Series.t) :
  width w s ->
  length (Series.flatten (Series.values s)) = (w * length s)%nat.
Proof.
  unfold width, Series.flatten, Series.values.
  induction 1 as [|r s Hr _ IH]; simpl; [lia|].
  rewrite length_app, IH, Hr. lia.
Qed.

Lemma width_skipn (w n : nat) (s : Series.t) :
  width w s -> width w (skipn n s).
Proof.
  unfold width. revert s.
  induction n as [|n IH]; intros s H; [exact H|].
  destruct s as [|r s]; [exact H|].
  simpl. apply IH. inversion H. assumption.
Qed.




(** ** The training window *)

Lemma slice_from_suffix {A} (k : Z) (older l : list A) :
  0 < k <= Z.of_nat (length l) ->
  Series.slice_from (- k) (older ++ l) = Series.slice_from (- k) l.
Proof.
  intro H.
  rewrite !slice_from_end by (rewrite ?length_app; lia).
  rewrite skipn_app, length_app.
  rewrite skipn_all2 by lia. simpl. f_equal. lia.
Qed.

(** X7.  Only the last 300 rows of the training series are used: when
    the training series has at least 300 rows, putting any older rows
    in front of it changes neither the result nor the effects of the
    evaluation. *)
Theorem training_uses_last_300_rows (P : Z) (env : LightGBM.Collaborators)
        (model : Darts.LightGBMModel) (data : Bundle) (older : Series.t)
        (tr : trace)
        (Hlong : (300 <= length (train data))%nat) :
  LightGBM.train_and_evaluate P env model
    (with_train (older ++ train data) data) tr =
  LightGBM.train_and_evaluate P env model data tr.
Proof.
  rewrite !train_and_evaluate_steps. unfold with_train.
  cbn [train val test past_covariates future_covariates].
  pose proof (slice_from_suffix 300 older (train data) ltac:(lia)) as H.
  cbn [Z.opp] in H. rewrite H. reflexivity.
Qed.

(** X7, with a training series of 300 rows and one older row. *)
Lemma training_uses_last_300_rows_witness :
  (300 <= length (train (Cases.long_bundle Scenario.test4)))%nat /\
  LightGBM.train_and_evaluate 4 Scenario.env_ok Scenario.model_low
    (with_train (Scenario.test4 ++ Cases.long_train)
                (Cases.long_bundle Scenario.test4)) [] =
  LightGBM.train_and_evaluate 4 Scenario.env_ok Scenario.model_low
    (Cases.long_bundle Scenario.test4) [].
Proof.
  assert (H : (300 <= length (train (Cases.long_bundle Scenario.test4)))%nat).
  { unfold Cases.long_bundle, Cases.long_train. cbn [train].
    rewrite length_map, length_seq. lia. }
  split; [exact H|].
  apply (training_uses_last_300_rows 4 Scenario.env_ok Scenario.model_low
           (Cases.long_bundle Scenario.test4) Scenario.test4 [] H).
Defined.

(** ** What the precision rewards *)

Lemma inject_nat_pos (n : nat) :
  (0 < n)%nat -> ~ (inject_Z (Z.of_nat n) == 0)%Q.
Proof.
  intros H E. apply (proj1 (inject_Z_injective (Z.of_nat n) 0)) in E. lia.
Qed.

Lemma prf_divide_one_iff (num den : nat) :
  (Sk.prf_divide num den == 1)%Q <-> num = den /\ (0 < den)%nat.
Proof.
  unfold Sk.prf_divide. destruct (Nat.eqb_spec den 0) as [E|E].
  - subst. split; [discriminate | intros [_ H]; exfalso; lia].
  - assert (Hd : ~ (inject_Z (Z.of_nat den) == 0)%Q)
      by (apply inject_nat_pos; lia).
    split.
    + intro H. split; [|lia].
      assert (Hm : (inject_Z (Z.of_nat den) *
                    (inject_Z (Z.of_nat num) / inject_Z (Z.of_nat den))
                    == inject_Z (Z.of_nat den) * 1)%Q)
        by (rewrite H; reflexivity).
      rewrite Qmult_div_r, Qmult_1_r in Hm by exact Hd.
      apply (proj1 (inject_Z_injective _ _)) in Hm. lia.
    + intros [-> _]. unfold Qdiv. apply Qmult_inv_r, Hd.
Qed.

Lemma prf_divide_zero_iff (num den : nat) :
  (num <= den)%nat ->
  (Sk.prf_divide num den == 0)%Q <-> num = O.
Proof.
  intro Hle. unfold Sk.prf_divide. destruct (Nat.eqb_spec den 0) as [E|E].
  - split; [lia | reflexivity].
  - assert (Hd : ~ (inject_Z (Z.of_nat den) == 0)%Q)
      by (apply inject_nat_pos; lia).
    split.
    + intro H.
      assert (Hm : (inject_Z (Z.of_nat den) *
                    (inject_Z (Z.of_nat num) / inject_Z (Z.of_nat den))
                    == inject_Z (Z.of_nat den) * 0)%Q)
        by (rewrite H; reflexivity).
      rewrite Qmult_div_r, Qmult_0_r in Hm by exact Hd.
      apply (proj1 (inject_Z_injective (Z.of_nat num) 0)) in Hm. lia.
    + intros ->. unfold Qdiv. simpl. apply Qmult_0_l.
Qed.

(** X8.  On binary vectors of one length the precision is 1 exactly
    when at least one point is predicted positive and none of the
    positive predictions is wrong, and it is 0 exactly when no positive
    prediction is right: one correct positive prediction already gives
    the best possible score. *)
Theorem precision_extremes (y_true y_pred : list Z)
        (Hlen : length y_true = length y_pred)
        (Htrue : Forall binary y_true)
        (Hpred : Forall binary y_pred) :
  exists p : Q,
    Sk.precision_score y_true y_pred = Ok p /\
    ((p == 1)%Q <->
     Sk.fp_sum y_true y_pred = O /\ (0 < Sk.tp_sum y_true y_pred)%nat) /\
    ((p == 0)%Q <-> Sk.tp_sum y_true y_pred = O).
Proof.
  pose proof (pred_sum_tp_fp y_true y_pred Hlen) as Hsum.
  eexists. split; [apply precision_score_binary; assumption|].
  rewrite Hsum. split.
  - rewrite prf_divide_one_iff. lia.
  - apply prf_divide_zero_iff. lia.
Qed.

(** X8, with one right positive prediction among four points. *)
Lemma precision_extremes_witness :
  exists p : Q,
    Sk.precision_score [1; 0; 1; 1] [0; 0; 1; 0] = Ok p /\ (p == 1)%Q.
Proof.
  assert (Hlen : length [1; 0; 1; 1] = length [0; 0; 1; 0]) by reflexivity.
  assert (Ht : Forall binary [1; 0; 1; 1])
    by (repeat (apply Forall_cons; [unfold binary; auto|]); apply Forall_nil).
  assert (Hp : Forall binary [0; 0; 1; 0])
    by (repeat (apply Forall_cons; [unfold binary; auto|]); apply Forall_nil).
  destruct (precision_extremes _ _ Hlen Ht Hp) as [p [H1 [H2 _]]].
  exists p. split; [exact H1|]. apply H2. split; [reflexivity | simpl; lia].
Defined.

Lemma tp_sum_app (a1 a2 b1 b2 : list Z) :
  length a1 = length b1 ->
  Sk.tp_sum (a1 ++ a2) (b1 ++ b2) = (Sk.tp_sum a1 b1 + Sk.tp_sum a2 b2)%nat.
Proof.
  revert b1. induction a1 as [|a a1 IH]; intros [|b b1] H; simpl in *;
    try discriminate; [reflexivity|].
  injection H as H. rewrite (IH b1 H). lia.
Qed.

Lemma pred_sum_app (b1 b2 : list Z) :
  Sk.pred_sum (b1 ++ b2) = (Sk.pred_sum b1 + Sk.pred_sum b2)%nat.
Proof.
  induction b1 as [|b b1 IH]; simpl; [reflexivity|]. rewrite IH. lia.
Qed.

Lemma binary_predictions_app (p1 p2 : list Q) :
  LightGBM.binary_predictions (p1 ++ p2) =
  LightGBM.binary_predictions p1 ++ LightGBM.binary_predictions p2.
Proof. unfold LightGBM.binary_predictions. apply map_app. Qed.

(** X9.  A point whose probability does not exceed 0.5 has no influence
    on the precision, whatever its label and wherever it stands: on
    binary labels, scoring with the point gives the same value as
    scoring without it, so missed positives cost nothing. *)
Theorem negative_predictions_do_not_count
        (labels1 labels2 : list Z) (probs1 probs2 : list Q)
        (label : Z) (prob : Q)
        (Hlen1 : length labels1 = length probs1)
        (Hlen2 : length labels2 = length probs2)
        (Hbin1 : Forall binary labels1)
        (Hbin2 : Forall binary labels2)
        (Hlabel : binary label)
        (Hprob : (prob <= 1 # 2)%Q) :
  Sk.precision_score (labels1 ++ label :: labels2)
    (LightGBM.binary_predictions (probs1 ++ prob :: probs2)) =
  Sk.precision_score (labels1 ++ labels2)
    (LightGBM.binary_predictions (probs1 ++ probs2)).
Proof.
  assert (Hb : Np.int_of_bool (Np.gt prob (1 # 2)) = 0)
    by (apply int_of_bool_zero, gt_false_iff, Hprob).
  assert (Hl1 : length labels1 =
                length (LightGBM.binary_predictions probs1))
    by (unfold LightGBM.binary_predictions; rewrite length_map; exact Hlen1).
  rewrite !precision_score_binary.
  - f_equal. rewrite !binary_predictions_app.
    change (LightGBM.binary_predictions (prob :: probs2))
      with (Np.int_of_bool (Np.gt prob (1 # 2))
            :: LightGBM.binary_predictions probs2).
    rewrite Hb, !tp_sum_app, !pred_sum_app by exact Hl1.
    simpl. rewrite andb_false_r. reflexivity.
  - unfold LightGBM.binary_predictions.
    rewrite length_map, !length_app. lia.
  - apply Forall_app. split; assumption.
  - apply binary_predictions_binary.
  - unfold LightGBM.binary_predictions.
    rewrite length_map, !length_app. simpl. lia.
  - apply Forall_app. split; [assumption|]. constructor; assumption.
  - apply binary_predictions_binary.
Qed.

(** X9, dropping the second point of the scenario (probability 0.1). *)
Lemma negative_predictions_do_not_count_witness :
  (1 # 10 <= 1 # 2)%Q /\
  Sk.precision_score ([1] ++ 0 :: [1; 1])
    (LightGBM.binary_predictions
       ([9 # 10] ++ (1 # 10) :: [6 # 10; 4 # 10])) =
  Sk.precision_score ([1] ++ [1; 1])
    (LightGBM.binary_predictions ([9 # 10] ++ [6 # 10; 4 # 10])).
Proof.
  assert (Hq : (1 # 10 <= 1 # 2)%Q) by discriminate.
  split; [exact Hq|].
  apply negative_predictions_do_not_count; try reflexivity; try exact Hq.
  - repeat (apply Forall_cons; [unfold binary; auto|]); apply Forall_nil.
  - repeat (apply Forall_cons; [unfold binary; auto|]); apply Forall_nil.
  - unfold binary; auto.
Defined.

(** ** One trial of the study *)

Lemma define_model_number (P : Z) (t : Optuna.Trial) :
  Optuna.number (snd (LightGBM.define_model P t)) = Optuna.number t.
Proof.
  unfold LightGBM.define_model, bind, ret, Optuna.suggest_int,
    Optuna.suggest_float, LightGBM.output_chunk_upper.
  cbn [Z.ltb Z.compare Pos.compare Pos.compare_cont].
  destruct (Z.ltb_spec (Z.min 20 P) 1); cbn -[Z.min]; reflexivity.
Qed.

(** The objective spelled out step by step. *)
Lemma objective_steps (P : Z) (env : LightGBM.Collaborators)
      (data : Bundle) (trials : list Optuna.FrozenTrial)
      (t : Optuna.Trial) (tr : trace) :
  LightGBM.objective P env data trials (t, tr) =
  match LightGBM.define_model P t with
  | (Raise e, t1) => (Raise e, (t1, tr))
  | (Ok m, t1) =>
    match LightGBM.train_and_evaluate P env m data tr with
    | (Raise e, tr1) => (Raise e, (t1, tr1))
    | (Ok p, tr1) =>
      match Optuna.best_value trials with
      | Raise e => (Raise e, (t1, tr1))
      | Ok _ => (Ok p, (t1, tr1 ++ [EvLog; EvLog]))
      end
    end
  end.
Proof.
  unfold LightGBM.objective, bind, lift, on_fst, on_snd, emit, ret.
  destruct (LightGBM.define_model P t) as [[m|e] t1]; [|reflexivity].
  destruct (LightGBM.train_and_evaluate P env m data tr) as [[p|e] tr1];
    [|reflexivity].
  destruct (Optuna.best_value trials) as [bv|e]; [|reflexivity].
  rewrite <- app_assoc. reflexivity.
Qed.

Lemma objective_number (P : Z) (env : LightGBM.Collaborators)
      (data : Bundle) (trials : list Optuna.FrozenTrial)
      (t : Optuna.Trial) (tr : trace) :
  Optuna.number (fst (snd (LightGBM.objective P env data trials (t, tr)))) =
  Optuna.number t.
Proof.
  rewrite objective_steps.
  pose proof (define_model_number P t) as Hn.
  destruct (LightGBM.define_model P t) as [[m|e] t1]; [|exact Hn].
  destruct (LightGBM.train_and_evaluate P env m data tr) as [[p|e] tr1];
    [|exact Hn].
  destruct (Optuna.best_value trials) as [bv|e]; exact Hn.
Qed.

(** X10.  The objective returns a score only when the model could be
    defined, its evaluation returned and the study already held a
    completed trial; the score is then the precision of exactly the
    model built from the trial, the trial is left holding that model's
    parameters, and the two log lines are the only further effects. *)
Theorem objective_returns_the_precision_of_its_model (P : Z)
        (env : LightGBM.Collaborators) (data : Bundle)
        (trials : list Optuna.FrozenTrial)
        (t t' : Optuna.Trial) (tr tr' : trace) (v : Q)
        (Hobj : LightGBM.objective P env data trials (t, tr) =
                (Ok v, (t', tr'))) :
  exists (m : Darts.LightGBMModel) (tr1 : trace) (bv : Q),
    LightGBM.define_model P t = (Ok m, t') /\
    LightGBM.train_and_evaluate P env m data tr = (Ok v, tr1) /\
    Optuna.best_value trials = Ok bv /\
    tr' = tr1 ++ [EvLog; EvLog] /\
    Optuna.params t' = Optuna.params t ++ params_of m.
Proof.
  rewrite objective_steps in Hobj.
  destruct (LightGBM.define_model P t) as [[m|e] t1] eqn:Hdef;
    [|discriminate].
  destruct (LightGBM.train_and_evaluate P env m data tr) as [[p|e] tr1]
    eqn:Heval; [|discriminate].
  destruct (Optuna.best_value trials) as [bv|e] eqn:Hbest; [|discriminate].
  injection Hobj as <- <- <-.
  exists m, tr1, bv.
  split; [reflexivity|]. split; [exact Heval|]. split; [reflexivity|].
  split; [reflexivity|].
  apply (define_model_inv P t t1 m Hdef).
Qed.

(** X10, on the reloaded study. *)
Lemma objective_returns_the_precision_of_its_model_witness :
  exists t' tr' m tr1,
    LightGBM.objective 4 Scenario.env_ok (Scenario.bundle Scenario.test4)
      Scenario.stored (Scenario.trial_low 1, []) = (Ok (2 # 2), (t', tr')) /\
    LightGBM.define_model 4 (Scenario.trial_low 1) = (Ok m, t') /\
    LightGBM.train_and_evaluate 4 Scenario.env_ok m
      (Scenario.bundle Scenario.test4) [] = (Ok (2 # 2), tr1).
Proof.
  eexists. eexists.
  assert (H : LightGBM.objective 4 Scenario.env_ok
                (Scenario.bundle Scenario.test4) Scenario.stored
                (Scenario.trial_low 1, []) =
              (Ok (2 # 2),
               (snd (LightGBM.define_model 4 (Scenario.trial_low 1)),
                full_trace ++ [EvLog; EvLog])))
    by (vm_compute; reflexivity).
  destruct (objective_returns_the_precision_of_its_model _ _ _ _ _ _ _ _ _ H)
    as [m [tr1 [bv [H1 [H2 _]]]]].
  exists m, tr1. split; [exact H|]. split; [exact H1 | exact H2].
Defined.

(** ** The study after a run *)

(** X11.  Trial numbers continue the study: when the sampler numbers a
    fresh trial by the size of the study, the trials a run appends carry
    the consecutive numbers that follow those already stored, whether
    they completed or failed, and the stored trials are left as they
    were. *)
Theorem trial_numbers_are_consecutive (P : Z)
        (env : LightGBM.Collaborators) (data : Bundle)
        (new_trial : nat -> Optuna.Trial)
        (Hnumber : forall k, Optuna.number (new_trial k) = k)
        (n_trials : nat) :
  forall (trials trials' : list Optuna.FrozenTrial) (tr tr' : trace)
         (r : result unit),
    Optuna.optimize new_trial (LightGBM.objective P env data)
      Optuna.catch_nothing n_trials (trials, tr) = (r, (trials', tr')) ->
    exists added,
      trials' = trials ++ added /\
      map Optuna.ft_number added = seq (length trials) (length added).
Proof.
  induction n_trials as [|n IH]; intros trials trials' tr tr' r H.
  - injection H as <- <- <-. exists []. rewrite app_nil_r. split; reflexivity.
  - cbn [Optuna.optimize] in H.
    pose proof (objective_number P env data trials
                  (new_trial (length trials)) tr) as Hn.
    rewrite Hnumber in Hn.
    destruct (LightGBM.objective P env data trials
                (new_trial (length trials), tr)) as [[v|e] [t tr1]];
      cbn [fst snd] in Hn.
    + apply IH in H. destruct H as [added [E Hs]]. subst trials'.
      exists (Optuna.freeze t Optuna.COMPLETE (Some v) :: added).
      split; [rewrite <- app_assoc; reflexivity|].
      cbn [map length seq Optuna.freeze Optuna.ft_number].
      rewrite Hn. f_equal. rewrite Hs, length_app. cbn [length].
      rewrite Nat.add_1_r. reflexivity.
    + unfold Optuna.catch_nothing in H. injection H as <- <- <-.
      exists [Optuna.freeze t Optuna.FAIL None].
      split; [reflexivity|].
      cbn [map length seq Optuna.freeze Optuna.ft_number].
      rewrite Hn. reflexivity.
Qed.

(** X11, on the reloaded study and five trials. *)
Lemma trial_numbers_are_consecutive_witness :
  (forall k, Optuna.number (Scenario.trial_numbered k) = k) /\
  exists trials' tr' added,
    Optuna.optimize Scenario.trial_numbered
      (LightGBM.objective 4 Scenario.env_training_error
                          (Scenario.bundle Scenario.test4))
      Optuna.catch_nothing 5 (Scenario.stored, [])
    = (Raise TrainingError, (trials', tr')) /\
    trials' = Scenario.stored ++ added /\
    map Optuna.ft_number added = seq 1 (length added).
Proof.
  assert (Hn : forall k, Optuna.number (Scenario.trial_numbered k) = k)
    by reflexivity.
  split; [exact Hn|].
  eexists. eexists.
  match goal with
  | |- exists added, ?run = (?r, (?ts, ?tr')) /\ _ =>
      assert (H : run = (r, (ts, tr'))) by (vm_compute; reflexivity);
      destruct (trial_numbers_are_consecutive 4
                  Scenario.env_training_error
                  (Scenario.bundle Scenario.test4)
                  Scenario.trial_numbered Hn 5 _ _ _ _ _ H)
        as [added [E Hs]]
  end.
  exists added. split; [exact H|]. split; [exact E | exact Hs].
Defined.

Lemma best_trial_none (trials : list Optuna.FrozenTrial) :
  Optuna.completed trials = [] -> Optuna.best_trial trials = None.
Proof.
  intro Hnone.
  pose proof (best_invariant_holds trials) as Hinv.
  unfold best_invariant in Hinv.
  destruct (Optuna.best_trial trials) as [b|]; [|reflexivity].
  destruct Hinv as [Hin [bv [Esb _]]]. exfalso.
  assert (Hc : In b (Optuna.completed trials)).
  { unfold Optuna.completed. apply filter_In. split; [exact Hin|].
    apply is_complete_score. eauto. }
  rewrite Hnone in Hc. exact Hc.
Qed.

(** X12.  On a study without a completed trial the script never
    reports a result.  Asked for no trial it raises when it reads the
    best parameters; asked for one or more, the first trial fails (the
    objective reads the best value of the study, which does not exist
    yet), it is stored as the only new trial, and its exception ends the
    run. *)
Theorem fresh_study_never_reports (P : Z) (env : LightGBM.Collaborators)
        (data : Bundle) (new_trial : nat -> Optuna.Trial)
        (n_trials : nat) (trials : list Optuna.FrozenTrial) (tr : trace)
        (Hfresh : Optuna.completed trials = []) :
  is_ok (fst (LightGBM.run P env data new_trial n_trials (trials, tr)))
  = false /\
  ((0 < n_trials)%nat ->
   exists f,
     fst (snd (LightGBM.run P env data new_trial n_trials (trials, tr))) =
     trials ++ [f] /\
     Optuna.is_fail f = true /\
     Optuna.ft_params f =
     Optuna.params
       (snd (LightGBM.define_model P (new_trial (length trials))))).
Proof.
  destruct n_trials as [|n].
  - split; [|intro H; inversion H].
    unfold LightGBM.run, bind, Optuna.optimize, ret, Optuna.best_params.
    cbn [fst]. rewrite (best_trial_none trials Hfresh). reflexivity.
  - pose proof (objective_needs_a_completed_trial P env data trials
                  (new_trial (length trials), tr) Hfresh) as Hraise.
    assert (Hparams :
              fst (snd (LightGBM.objective P env data trials
                          (new_trial (length trials), tr))) =
              snd (LightGBM.define_model P (new_trial (length trials)))).
    { rewrite objective_steps.
      destruct (LightGBM.define_model P (new_trial (length trials)))
        as [[m|e] t1]; [|reflexivity].
      destruct (LightGBM.train_and_evaluate P env m data tr)
        as [[p|e] tr1]; [|reflexivity].
      destruct (Optuna.best_value trials); reflexivity. }
    unfold LightGBM.run, bind. cbn [Optuna.optimize].
    destruct (LightGBM.objective P env data trials
                (new_trial (length trials), tr)) as [[v|e] [t tr1]];
      [discriminate|].
    cbn [fst snd] in Hparams. subst t.
    unfold Optuna.catch_nothing. cbn [fst snd].
    split; [reflexivity|]. intros _.
    eexists. split; [reflexivity|]. split; reflexivity.
Qed.

(** X12, on an empty study and fifty trials. *)
Lemma fresh_study_never_reports_witness :
  Optuna.completed [] = [] /\
  is_ok (fst (LightGBM.main 4 Scenario.env_ok
                (Scenario.bundle Scenario.test4) Scenario.trial_low
                ([], []))) = false /\
  exists f,
    fst (snd (LightGBM.main 4 Scenario.env_ok
                (Scenario.bundle Scenario.test4) Scenario.trial_low
                ([], []))) = [] ++ [f] /\
    Optuna.is_fail f = true.
Proof.
  split; [reflexivity|].
  destruct (fresh_study_never_reports 4 Scenario.env_ok
              (Scenario.bundle Scenario.test4) Scenario.trial_low 50 [] []
              eq_refl) as [H1 H2].
  split; [exact H1|].
  destruct (H2 ltac:(lia)) as [f [Hf [Hfail _]]].
  exists f. split; [exact Hf | exact Hfail].
Defined.

(** X13.  When the script does report, every trial it asked for has
    completed, the reported value is the score of a completed trial of
    the final study that no completed trial exceeds, and the reported
    parameters are those of that trial. *)
Theorem report_comes_from_a_full_run (P : Z)
        (env : LightGBM.Collaborators) (data : Bundle)
        (new_trial : nat -> Optuna.Trial) (n_trials : nat)
        (trials trials' : list Optuna.FrozenTrial) (tr tr' : trace)
        (bp : list (string * Optuna.value)) (bv : Q)
        (Hrun : LightGBM.run P env data new_trial n_trials (trials, tr) =
                (Ok (bp, bv), (trials', tr'))) :
  exists added b,
    trials' = trials ++ added /\
    length added = n_trials /\
    forallb Optuna.is_complete added = true /\
    In b (Optuna.completed trials') /\
    Optuna.score_of b = Some bv /\
    Optuna.ft_params b = bp /\
    (forall u v, In u trials' -> Optuna.score_of u = Some v -> (v <= bv)%Q).
Proof.
  unfold LightGBM.run, bind in Hrun.
  destruct (Optuna.optimize new_trial (LightGBM.objective P env data)
              Optuna.catch_nothing n_trials (trials, tr))
    as [[u|e] [ts tr1]] eqn:Hopt; [|discriminate].
  cbn [fst] in Hrun.
  destruct (Optuna.best_params ts) as [ps|e] eqn:Hbp; [|discriminate].
  unfold on_snd, emit in Hrun. cbn [fst] in Hrun.
  destruct (Optuna.best_value ts) as [w|e] eqn:Hbv; [|discriminate].
  unfold ret in Hrun. injection Hrun as <- <- <- <-.
  destruct (optimize_stops _ _ _ _ _ _ _ _ Hopt) as [added [E Hstop]].
  cbn [stops_at_first_failure] in Hstop. destruct Hstop as [Hl Hc].
  destruct (best_value_inv ts w Hbv) as [b [Eb Esb]].
  pose proof (best_invariant_holds ts) as Hinv.
  unfold best_invariant in Hinv. rewrite Eb in Hinv.
  destruct Hinv as [Hin [w' [Esb' Hmax]]].
  assert (w' = w) by congruence. subst w'.
  exists added, b.
  split; [exact E|]. split; [exact Hl|]. split; [exact Hc|].
  split.
  { unfold Optuna.completed. apply filter_In. split; [exact Hin|].
    apply is_complete_score. eauto. }
  split; [exact Esb|]. split; [|exact Hmax].
  unfold Optuna.best_params in Hbp. rewrite Eb in Hbp.
  injection Hbp as <-. reflexivity.
Qed.

(** X13, on the reloaded study and two trials. *)
Lemma report_comes_from_a_full_run_witness :
  exists bp bv trials' tr' added,
    LightGBM.run 4 Scenario.env_ok (Scenario.bundle Scenario.test4)
      Scenario.trial_low 2 (Scenario.stored, []) =
    (Ok (bp, bv), (trials', tr')) /\
    trials' = Scenario.stored ++ added /\
    length added = 2%nat.
Proof.
  eexists. eexists. eexists. eexists.
  match goal with
  | |- exists added, ?run = ?res /\ _ =>
      assert (H : run = res) by (vm_compute; reflexivity);
      destruct (report_comes_from_a_full_run _ _ _ _ _ _ _ _ _ _ _ H)
        as [added [b [E [Hl _]]]]
  end.
  exists added. split; [exact H|]. split; [exact E | exact Hl].
Defined.

(** ** The TSMixer script *)

Lemma slice_to_end {A} (P : Z) (l : list A) :
  1 <= P <= Z.of_nat (length l) ->
  Series.slice_to (- P) l = firstn (length l - Z.to_nat P) l.
Proof.
  intro H. unfold Series.slice_to.
  destruct (Z.ltb_spec (- P) 0); [|lia]. f_equal. lia.
Qed.

Lemma slice_to_nothing {A} (P : Z) (l : list A) :
  P = 0 \/ Z.of_nat (length l) <= P -> Series.slice_to (- P) l = [].
Proof.
  intro H. unfold Series.slice_to.
  destruct (Z.ltb_spec (- P) 0).
  - rewrite Z.max_r by lia. reflexivity.
  - rewrite Z.min_l by lia.
    replace (- P) with 0 by lia. reflexivity.
Qed.

(** The TSMixer evaluation spelled out step by step. *)
Lemma tsmixer_steps (pred_steps : Z) (sigmoid : Q -> Q)
      (env : TSMixer.Collaborators) (model : TSMixer.ModelParams)
      (data : Bundle) (tr : trace) :
  TSMixer.train_and_evaluate pred_steps sigmoid env model data tr =
  match TSMixer.fit env model data with
  | Raise e => (Raise e, tr ++ [EvFit])
  | Ok fitted =>
    match Series.getitem_to (- pred_steps) (test data) with
    | Raise e => (Raise e, tr ++ [EvFit; EvEmptyCache])
    | Ok pred_input =>
      match fitted pred_steps pred_input with
      | Raise e => (Raise e, tr ++ [EvFit; EvEmptyCache; EvPredict])
      | Ok pred_series =>
        match TSMixer.score pred_steps sigmoid (test data) pred_series with
        | Raise e =>
            (Raise e, tr ++ [EvFit; EvEmptyCache; EvPredict; EvScore])
        | Ok p =>
          match TSMixer.plot_metrics env pred_series (test data)
                  pred_steps with
          | Raise e =>
              (Raise e,
               tr ++ [EvFit; EvEmptyCache; EvPredict; EvScore; EvLog;
                      EvPlot])
          | Ok _ => (Ok p, tr ++ tsmixer_full_trace)
          end
        end
      end
    end
  end.
Proof.
  unfold TSMixer.train_and_evaluate, bind, call, emit, ret, lift,
    tsmixer_full_trace.
  destruct (TSMixer.fit env model data) as [fitted|e]; [|reflexivity].
  destruct (Series.getitem_to (- pred_steps) (test data))
    as [pred_input|e]; [|rewrite <- !app_assoc; reflexivity].
  destruct (fitted pred_steps pred_input) as [pred_series|e];
    [|rewrite <- !app_assoc; reflexivity].
  destruct (TSMixer.score pred_steps sigmoid (test data) pred_series)
    as [p|e]; [|rewrite <- !app_assoc; reflexivity].
  destruct (TSMixer.plot_metrics env pred_series (test data) pred_steps)
    as [u|e]; rewrite <- !app_assoc; reflexivity.
Qed.

(** X14.  The prediction input of the TSMixer script is the part of the
    test series before its last [pred_steps] rows, and it must hold a
    row.  With [pred_steps = 0] or [pred_steps >= len(test)] it holds
    none: the evaluation raises [ValueError] after the fit and the
    emptying of the cache, and [predict] is not called.  With
    [1 <= pred_steps < len(test)], [predict] is asked for [pred_steps]
    steps from exactly the rows before the label rows, and what follows
    depends on the fitted model through this one call only. *)
Theorem prediction_input_precedes_labels (pred_steps : Z)
        (sigmoid : Q -> Q) (env : TSMixer.Collaborators)
        (model : TSMixer.ModelParams) (data : Bundle) (tr : trace)
        (fitted : TSMixer.Predictor)
        (Hfit : TSMixer.fit env model data = Ok fitted) :
  (pred_steps = 0 \/ Z.of_nat (length (test data)) <= pred_steps ->
   TSMixer.train_and_evaluate pred_steps sigmoid env model data tr =
   (Raise ValueError, tr ++ [EvFit; EvEmptyCache])) /\
  (1 <= pred_steps < Z.of_nat (length (test data)) ->
   let cut := (length (test data) - Z.to_nat pred_steps)%nat in
   firstn cut (test data) <> [] /\
   length (skipn cut (test data)) = Z.to_nat pred_steps /\
   TSMixer.true_labels pred_steps (test data) =
     map Np.astype_int
         (Series.flatten (Series.values (skipn cut (test data)))) /\
   TSMixer.train_and_evaluate pred_steps sigmoid env model data tr =
   match fitted pred_steps (firstn cut (test data)) with
   | Raise e => (Raise e, tr ++ [EvFit; EvEmptyCache; EvPredict])
   | Ok pred_series =>
     match TSMixer.score pred_steps sigmoid (test data) pred_series with
     | Raise e =>
         (Raise e, tr ++ [EvFit; EvEmptyCache; EvPredict; EvScore])
     | Ok p =>
       match TSMixer.plot_metrics env pred_series (test data)
               pred_steps with
       | Raise e =>
           (Raise e,
            tr ++ [EvFit; EvEmptyCache; EvPredict; EvScore; EvLog; EvPlot])
       | Ok _ => (Ok p, tr ++ tsmixer_full_trace)
       end
     end
   end).
Proof.
  split.
  - intro H. rewrite tsmixer_steps, Hfit. unfold Series.getitem_to.
    rewrite (slice_to_nothing pred_steps (test data) H). reflexivity.
  - intro H. cbv zeta.
    set (cut := (length (test data) - Z.to_nat pred_steps)%nat).
    assert (Hcut : (0 < cut < length (test data))%nat) by (unfold cut; lia).
    assert (Hne : firstn cut (test data) <> []).
    { intro E. apply (f_equal (@length _)) in E.
      rewrite length_firstn in E. simpl in E. lia. }
    split; [exact Hne|].
    split; [rewrite length_skipn; unfold cut; lia|].
    split.
    { unfold TSMixer.true_labels.
      rewrite slice_from_end by lia. reflexivity. }
    rewrite tsmixer_steps, Hfit. unfold Series.getitem_to.
    rewrite slice_to_end by lia. fold cut.
    destruct (firstn cut (test data)) as [|r rows] eqn:E;
      [congruence | reflexivity].
Qed.

(** X14, on a test series of seven rows: with two prediction steps the
    run returns, with none it raises before [predict]. *)
Lemma prediction_input_precedes_labels_witness :
  1 <= 2 < Z.of_nat (length (test (Scenario.bundle Scenario.test4))) /\
  TSMixer.train_and_evaluate 2 Cases.sigmoid_step Cases.tsmixer_env
    TSMixer.best_params (Scenario.bundle Scenario.test4) [] =
  (Ok (1 # 1), tsmixer_full_trace) /\
  TSMixer.train_and_evaluate 0 Cases.sigmoid_step Cases.tsmixer_env
    TSMixer.best_params (Scenario.bundle Scenario.test4) [] =
  (Raise ValueError, [EvFit; EvEmptyCache]).
Proof.
  assert (Hw : 1 <= 2 <
               Z.of_nat (length (test (Scenario.bundle Scenario.test4))))
    by (simpl; lia).
  split; [exact Hw|].
  destruct (prediction_input_precedes_labels 2 Cases.sigmoid_step
              Cases.tsmixer_env TSMixer.best_params
              (Scenario.bundle Scenario.test4) [] Cases.predictor2 eq_refl)
    as [_ H2].
  destruct (H2 Hw) as [_ [_ [_ Hrun]]].
  destruct (prediction_input_precedes_labels 0 Cases.sigmoid_step
              Cases.tsmixer_env TSMixer.best_params
              (Scenario.bundle Scenario.test4) [] Cases.predictor2 eq_refl)
    as [H0 _].
  split; [rewrite Hrun; reflexivity|].
  exact (H0 (or_introl eq_refl)).
Defined.

(** X15.  In the TSMixer script the accelerator cache is emptied as
    soon as the fit has returned, before prediction and scoring: the
    cache is emptied exactly when the fit returns, also on the runs in
    which prediction, scoring or plotting raises afterwards, and
    whenever scoring takes place the cache has been emptied.  The
    effects are an initial segment of fit, empty-cache, predict,
    scoring, log, plot. *)
Theorem tsmixer_releases_after_fit (pred_steps : Z) (sigmoid : Q -> Q)
        (env : TSMixer.Collaborators) (model : TSMixer.ModelParams)
        (data : Bundle) :
  let run := TSMixer.train_and_evaluate pred_steps sigmoid env model data []
  in
  released (snd run) = is_ok (TSMixer.fit env model data) /\
  is_prefix (snd run) tsmixer_full_trace /\
  (scored (snd run) = true -> released (snd run) = true) /\
  (is_ok (fst run) = true -> snd run = tsmixer_full_trace).
Proof.
  cbv zeta. rewrite tsmixer_steps. unfold is_prefix, tsmixer_full_trace.
  destruct (TSMixer.fit env model data) as [fitted|e];
    [|trace_case].
  destruct (Series.getitem_to (- pred_steps) (test data))
    as [pred_input|e]; [|trace_case].
  destruct (fitted pred_steps pred_input) as [pred_series|e];
    [|trace_case].
  destruct (TSMixer.score pred_steps sigmoid (test data) pred_series)
    as [p|e]; [|trace_case].
  destruct (TSMixer.plot_metrics env pred_series (test data) pred_steps)
    as [u|e]; [|trace_case].
  trace_case.
Qed.

(** X15, on a run in which every step returns. *)
Lemma tsmixer_releases_after_fit_witness :
  let run := TSMixer.train_and_evaluate 2 Cases.sigmoid_step
               Cases.tsmixer_env TSMixer.best_params
               (Scenario.bundle Scenario.test4) [] in
  scored (snd run) = true /\ released (snd run) = true /\
  fst run = Ok (1 # 1).
Proof.
  cbv zeta.
  destruct (tsmixer_releases_after_fit 2 Cases.sigmoid_step
              Cases.tsmixer_env TSMixer.best_params
              (Scenario.bundle Scenario.test4)) as [_ [_ [H _]]].
  assert (Hs : scored (snd (TSMixer.train_and_evaluate 2 Cases.sigmoid_step
                              Cases.tsmixer_env TSMixer.best_params
                              (Scenario.bundle Scenario.test4) [])) = true)
    by reflexivity.
  split; [exact Hs|]. split; [exact (H Hs) | reflexivity].
Defined.

(** ** The plots *)

Lemma open_figures_app (n : nat) (a b : list Plotting.action) :
  Plotting.open_figures n (a ++ b) =
  Plotting.open_figures (Plotting.open_figures n a) b.
Proof.
  revert n. induction a as [|x a IH]; intro n; [reflexivity|].
  destruct x; simpl; apply IH.
Qed.

Lemma figures_app (a b : list Plotting.action) :
  Plotting.figures (a ++ b) = (Plotting.figures a + Plotting.figures b)%nat.
Proof.
  induction a as [|x a IH]; [reflexivity|].
  destruct x; simpl; rewrite IH; reflexivity.
Qed.

Lemma stock_figures_balanced (n : nat) (stocks : list string) :
  Plotting.open_figures n (flat_map Plotting.stock_figure stocks) = n /\
  Plotting.figures (flat_map Plotting.stock_figure stocks) = length stocks /\
  Plotting.actual_stocks (flat_map Plotting.stock_figure stocks) = stocks /\
  Plotting.predicted_stocks (flat_map Plotting.stock_figure stocks) = stocks.
Proof.
  induction stocks as [|s stocks [IH1 [IH2 [IH3 IH4]]]];
    [repeat split; reflexivity|].
  simpl. rewrite IH1, IH2, IH3, IH4. repeat split; reflexivity.
Qed.

Lemma length_slice_to_3 {A} (l : list A) :
  length (Series.slice_to 3 l) = Nat.min 3 (length l).
Proof.
  unfold Series.slice_to. cbn [Z.ltb Z.compare].
  rewrite length_firstn. lia.
Qed.

(** X16.  [plot_metrics] of the TSMixer script closes every figure it
    opens, whatever the number of components; it draws the loss figure
    and one figure for each of the first three components at most, each
    with the actual and the predicted values of that component, in the
    order of the columns. *)
Theorem plot_metrics_figures (columns : list string) (n : nat) :
  Plotting.open_figures n (Plotting.plot_metrics columns) = n /\
  Plotting.figures (Plotting.plot_metrics columns) =
    (1 + Nat.min 3 (length columns))%nat /\
  Plotting.actual_stocks (Plotting.plot_metrics columns) =
    firstn 3 columns /\
  Plotting.predicted_stocks (Plotting.plot_metrics columns) =
    firstn 3 columns.
Proof.
  assert (Hs : Series.slice_to 3 columns = firstn 3 columns).
  { unfold Series.slice_to. cbn [Z.ltb Z.compare].
    destruct (Z.min_spec 3 (Z.of_nat (length columns))) as [[H E]|[H E]];
      rewrite E.
    - reflexivity.
    - rewrite Nat2Z.id. rewrite firstn_all.
      symmetry. apply firstn_all2. lia. }
  unfold Plotting.plot_metrics.
  destruct (stock_figures_balanced n (Series.slice_to 3 columns))
    as [H1 [H2 [H3 H4]]].
  split; [|split; [|split]].
  - rewrite open_figures_app. simpl. exact H1.
  - rewrite figures_app, H2, length_slice_to_3. reflexivity.
  - simpl. rewrite H3. exact Hs.
  - simpl. rewrite H4. exact Hs.
Qed.

(** ** The best value along a run *)

Lemma best_value_snoc (trials : list Optuna.FrozenTrial)
      (t : Optuna.FrozenTrial) (bv : Q) :
  Optuna.best_value trials = Ok bv ->
  exists bv', Optuna.best_value (trials ++ [t]) = Ok bv' /\ (bv <= bv')%Q.
Proof.
  intro H. destruct (best_value_inv trials bv H) as [b [Eb Esb]].
  unfold Optuna.best_value. rewrite best_trial_snoc, Eb.
  unfold Optuna.update_best. rewrite Esb.
  destruct (Optuna.score_of t) as [v|] eqn:Et.
  - destruct (Qle_bool v bv) eqn:Ele; cbn [negb].
    + rewrite Esb. exists bv. split; [reflexivity | apply Qle_refl].
    + rewrite Et. exists v. split; [reflexivity|].
      apply Qlt_le_weak, Qnot_le_lt. intro Hc.
      apply Qle_bool_iff in Hc. congruence.
  - rewrite Esb. exists bv. split; [reflexivity | apply Qle_refl].
Qed.

(** X17.  Once the study has a best value it keeps one, and the best
    value never decreases as trials are appended, completed or failed:
    the value the objective logs during a run is never above the value
    reported at its end. *)
Theorem best_value_never_decreases (trials added : list Optuna.FrozenTrial)
        (bv : Q)
        (Hbest : Optuna.best_value trials = Ok bv) :
  exists bv',
    Optuna.best_value (trials ++ added) = Ok bv' /\ (bv <= bv')%Q.
Proof.
  induction added as [|t added IH] using rev_ind.
  - rewrite app_nil_r. exists bv. split; [exact Hbest | apply Qle_refl].
  - destruct IH as [bv1 [H1 Hle1]].
    destruct (best_value_snoc (trials ++ added) t bv1 H1)
      as [bv2 [H2 Hle2]].
    exists bv2. rewrite app_assoc. split; [exact H2|].
    apply Qle_trans with bv1; assumption.
Qed.

(** X17, appending a failed and a better trial to the reloaded study. *)
Lemma best_value_never_decreases_witness :
  Optuna.best_value Scenario.stored = Ok (1 # 2) /\
  exists bv',
    Optuna.best_value
      (Scenario.stored ++
       [Optuna.freeze (Scenario.trial_low 1) Optuna.FAIL None;
        Optuna.freeze (Scenario.trial_low 2) Optuna.COMPLETE (Some 1%Q)])
    = Ok bv' /\ (1 # 2 <= bv')%Q.
Proof.
  assert (H : Optuna.best_value Scenario.stored = Ok (1 # 2)) by reflexivity.
  split; [exact H|].
  apply (best_value_never_decreases Scenario.stored _ (1 # 2) H).
Defined.

(** ** A window the model cannot forecast *)

Lemma slice_from_short {A} (P : Z) (l : list A) :
  1 <= P -> (length l <= Z.to_nat P)%nat -> Series.slice_from (- P) l = l.
Proof.
  intros HP Hl. unfold Series.slice_from.
  destruct (Z.ltb_spec (- P) 0); [|lia].
  rewrite Z.max_r by lia. reflexivity.
Qed.

(** X18.  When the test series does not hold, before the window, the
    rows the lags of the model need, the evaluation cannot return a
    score: either the backtest call is rejected, or it forecasts fewer
    points than the window has and [precision_score] rejects vectors of
    different lengths.  In both cases [train_and_evaluate] raises
    [ValueError] after the fit, and nothing is released. *)
Theorem window_without_history (P : Z) (env : LightGBM.Collaborators)
        (model : Darts.LightGBMModel) (data : Bundle) (tr : trace)
        (fitted : Darts.Forecaster) (w : nat)
        (Hfit : LightGBM.fit env model
                  (Series.slice_from (-300) (train data))
                  (past_covariates data) (future_covariates data)
                  (val data) = Ok fitted)
        (Hwindow : 1 <= P <= Z.of_nat (length (test data)))
        (Hindex : NoDup (Series.time_index (test data)))
        (Hearly : (length (test data) - Z.to_nat P <
                   Z.to_nat (Darts.lags model))%nat)
        (Hwidth : width w (test data))
        (Hpositive : (0 < w)%nat)
        (Hmodel : forall history, length (fitted history 1%nat) = w) :
  exists done : trace,
    LightGBM.train_and_evaluate P env model data tr =
      (Raise ValueError, tr ++ done) /\
    stopped_at_backtest_or_scoring done /\
    released done = false.
Proof.
  set (n := length (test data)) in *.
  set (i0 := (n - Z.to_nat P)%nat) in *.
  set (lags := Z.to_nat (Darts.lags model)) in *.
  assert (Hlen : length (Series.time_index (test data)) = n)
    by (unfold Series.time_index; apply length_map).
  assert (Hi0 : (i0 < n)%nat) by (unfold i0; lia).
  assert (Hi0P : (n - i0)%nat = Z.to_nat P) by (unfold i0; lia).
  rewrite train_and_evaluate_steps, Hfit.
  rewrite (index_from_end 0) by (rewrite Hlen; exact Hwindow).
  rewrite Hlen. fold n. fold i0. fold lags.
  destruct (LightGBM.moves_early_start env) eqn:Hmoves.
  2:{ rewrite (historical_forecasts_rejects fitted lags false (test data) i0
                 Hindex Hi0 Hearly (or_introl eq_refl)).
      exists [EvFit; EvBacktest]. split; [reflexivity|].
      split; [left; reflexivity | reflexivity]. }
  destruct (Nat.le_gt_cases n lags) as [Hnone|Hsome].
  { rewrite (historical_forecasts_rejects fitted lags true (test data) i0
               Hindex Hi0 Hearly (or_intror Hnone)).
    exists [EvFit; EvBacktest]. split; [reflexivity|].
    split; [left; reflexivity | reflexivity]. }
  assert (Hmax : Nat.max i0 lags = lags) by lia.
  rewrite (historical_forecasts_from fitted lags true (test data) i0
             Hindex Hi0 (or_intror eq_refl))
    by (rewrite Hmax; exact Hsome).
  rewrite Hmax. fold n.
  set (bt := map (fun i => (nth i (Series.time_index (test data)) 0,
                            fitted (firstn i (test data)) 1%nat))
                 (seq lags (n - lags))).
  assert (Hbtlen : length bt = (n - lags)%nat)
    by (unfold bt; rewrite length_map, length_seq; reflexivity).
  assert (Hfewer : (n - lags < Z.to_nat P)%nat) by lia.
  assert (Hbtw : width w bt).
  { unfold width, bt. apply Forall_forall. intros r Hr.
    apply in_map_iff in Hr. destruct Hr as [i [<- _]]. apply Hmodel. }
  assert (Hprobs : length (LightGBM.probabilities P bt) =
                   (w * (n - lags))%nat).
  { unfold LightGBM.probabilities.
    rewrite slice_from_short by (unfold Series.row in *; lia).
    rewrite (length_flatten_width w) by exact Hbtw.
    f_equal. exact Hbtlen. }
  assert (Htl : length (LightGBM.true_labels P (test data)) =
                (w * Z.to_nat P)%nat).
  { unfold LightGBM.true_labels. rewrite length_map.
    rewrite slice_from_end by exact Hwindow.
    rewrite (length_flatten_width w) by (apply width_skipn, Hwidth).
    rewrite length_skipn. f_equal. exact Hi0P. }
  assert (Hdiff : Nat.eqb (length (LightGBM.true_labels P (test data)))
                    (length (LightGBM.binary_predictions
                               (LightGBM.probabilities P bt))) = false).
  { apply Nat.eqb_neq. unfold LightGBM.binary_predictions.
    rewrite length_map, Htl, Hprobs. nia. }
  unfold LightGBM.score, Sk.precision_score. rewrite Hdiff. cbn [negb].
  eexists. split; [reflexivity|].
  split; [right; reflexivity | reflexivity].
Qed.

(** X18, with a window of seven points on a test series of seven rows
    and a model of one lag, for a library that moves the start and for
    one that rejects it. *)
Lemma window_without_history_witness :
  (length (test (Scenario.bundle Scenario.test4)) - Z.to_nat 7 <
   Z.to_nat (Darts.lags Scenario.model_low))%nat /\
  (exists done : trace,
     LightGBM.train_and_evaluate 7 Scenario.env_ok Scenario.model_low
       (Scenario.bundle Scenario.test4) [] = (Raise ValueError, [] ++ done) /\
     stopped_at_backtest_or_scoring done /\ released done = false) /\
  (exists done : trace,
     LightGBM.train_and_evaluate 7 Cases.env_rejecting Scenario.model_low
       (Scenario.bundle Scenario.test4) [] = (Raise ValueError, [] ++ done) /\
     stopped_at_backtest_or_scoring done /\ released done = false).
Proof.
  assert (He : (length (test (Scenario.bundle Scenario.test4)) - Z.to_nat 7 <
                Z.to_nat (Darts.lags Scenario.model_low))%nat)
    by (simpl; lia).
  assert (Hw : 1 <= 7 <=
               Z.of_nat (length (test (Scenario.bundle Scenario.test4))))
    by (simpl; lia).
  assert (Hnd : NoDup (Series.time_index
                         (test (Scenario.bundle Scenario.test4)))).
  { simpl. repeat constructor; simpl; intuition discriminate. }
  assert (Hwd : width 1 (test (Scenario.bundle Scenario.test4)))
    by (repeat constructor).
  assert (Hm : forall history,
             length (Scenario.forecaster4 history 1%nat) = 1%nat)
    by reflexivity.
  assert (Hpos : (0 < 1)%nat) by lia.
  split; [exact He|].
  split.
  - exact (window_without_history 7 Scenario.env_ok Scenario.model_low
             (Scenario.bundle Scenario.test4) [] Scenario.forecaster4 1%nat
             eq_refl Hw Hnd He Hwd Hpos Hm).
  - exact (window_without_history 7 Cases.env_rejecting Scenario.model_low
             (Scenario.bundle Scenario.test4) [] Scenario.forecaster4 1%nat
             eq_refl Hw Hnd He Hwd Hpos Hm).
Defined.

(** The two runs of that scenario: a library that moves the start
    forecasts six of the seven points and the scoring call rejects the
    vectors; a library that rejects the start ends the run at the
    backtest call. *)
Example early_start_moved :
  LightGBM.train_and_evaluate 7 Scenario.env_ok Scenario.model_low
    (Scenario.bundle Scenario.test4) [] =
  (Raise ValueError,
   [EvFit; EvBacktest; EvPrint; EvPrint; EvPrint; EvPrint; EvScore]).
Proof. reflexivity. Qed.

Example early_start_rejected :
  LightGBM.train_and_evaluate 7 Cases.env_rejecting Scenario.model_low
    (Scenario.bundle Scenario.test4) [] =
  (Raise ValueError, [EvFit; EvBacktest]).
Proof. reflexivity. Qed.
